(** * swim: the scrapers of [fetch/__init__.py]

    A shallow embedding of the three parsers of the [fetch] package:
    the row-stream parser of [fetch_meet_results], the time parser
    [time_to_float] and the profile parser [fetch_swimmer].

    Conventions of the embedding.
    - A text is a [string] of characters with the code points 0 to
      255.  Of these, [str.lower] is modelled on the letters A-Z: it is
      only used to look for "ex" and "dq", and no other character has a
      lower case among the letters of ASCII.  The white space beyond
      ASCII is NEL (133) and NBSP (160), and there is no decimal digit
      beyond ASCII.
    - A Python exception is a value of [exn]; a computation that may
      raise has type [result A].  Python list indexing [l[i]] is the
      list lookup [l !! i], with [IndexError] written out where the
      lookup is undefined.
    - A Python [float] is a binary64 number, a [spec_float] with
      precision 53 and maximal exponent 1024. *)

From Stdlib Require Import ZArith Ascii String List Bool Lia.
From Stdlib Require Import Floats.SpecFloat.
From stdpp Require Import base option list gmap strings.

Local Open Scope string_scope.
Local Open Scope list_scope.

(** ** Exceptions and the error monad *)

Inductive exn : Type :=
| IndexError
| ValueError
| TypeError
| KeyError
| OverflowError.

Inductive result (A : Type) : Type :=
| Return (a : A)
| Raise (e : exn).

Arguments Return {A} a.
Arguments Raise {A} e.

#[global] Instance result_ret : MRet result := fun A a => Return a.

#[global] Instance result_bind : MBind result := fun A B k m =>
  match m with
  | Return a => k a
  | Raise e => Raise e
  end.

(** [l[i]] for a non-negative index. *)
Definition index {A : Type} (l : list A) (i : nat) : result A :=
  match l !! i with
  | Some a => Return a
  | None => Raise IndexError
  end.

(** ** Strings: [in] and [lower] *)

(** [hay] starts with [needle]. *)
Fixpoint starts_with (needle hay : string) : bool :=
  match needle, hay with
  | EmptyString, _ => true
  | String a needle', String b hay' => Ascii.eqb a b && starts_with needle' hay'
  | String _ _, EmptyString => false
  end.

(** [needle in hay] on strings. *)
Fixpoint contains (needle hay : string) : bool :=
  starts_with needle hay ||
  match hay with
  | EmptyString => false
  | String _ rest => contains needle rest
  end.

Definition lower_ascii (c : ascii) : ascii :=
  let n := nat_of_ascii c in
  if (65 <=? n)%nat && (n <=? 90)%nat then ascii_of_nat (n + 32) else c.

Fixpoint lower (s : string) : string :=
  match s with
  | EmptyString => EmptyString
  | String c rest => String (lower_ascii c) (lower rest)
  end.

(** ** The meet table: [fetch_meet_results] *)

(** [current_parse] takes the values ["event"], ["times"] and ["exhib"]. *)
Inductive ParseState : Type := event | times | exhib.

(** An entry is the three-element list [[TIME, SWIMMER NAME, exhib]] of
    the docstring: position 0 is the time, position 1 the name. *)
Record TimeEntry : Type := mkEntry {
  rawTime : string;
  swimmerName : string;
  isExhibition : bool
}.

(** An event is the list [[EVENT NAME, home entries, away entries]]. *)
Record EventResult : Type := mkEvent {
  eventName : string;
  homeEntries : list TimeEntry;
  awayEntries : list TimeEntry
}.

Definition add_home (t : TimeEntry) (e : EventResult) : EventResult :=
  mkEvent (eventName e) (homeEntries e ++ [t]) (awayEntries e).

Definition add_away (t : TimeEntry) (e : EventResult) : EventResult :=
  mkEvent (eventName e) (homeEntries e) (awayEntries e ++ [t]).

(** [events[-1][k].append(t)]: the last event is updated in place; on
    an empty list [events[-1]] is out of range. *)
Definition append_last (f : EventResult -> EventResult)
    (events : list EventResult) : result (list EventResult) :=
  match events with
  | [] => Raise IndexError
  | _ => Return (alter f (pred (length events)) events)
  end.

(** The body of the loop over [results], lines 48-82: one row, from the
    pair ([current_parse], [events]) to the next pair. *)
Definition parse_row (st : ParseState * list EventResult) (row : list string)
    : result (ParseState * list EventResult) :=
  let '(current_parse, events) := st in
  row0 ← index row 0;
  if contains "Exhibition" row0 then
    Return (exhib, events)
  else if (length row =? 1)%nat then
    Return (times, events ++ [mkEvent row0 [] []])
  else
    match current_parse with
    | event =>
        Return (times, events ++ [mkEvent row0 [] []])
    | times =>
        sentinel ← (if String.eqb row0 ""
                     then row7 ← index row 7; Return (String.eqb row7 "")
                     else Return false);
        if (sentinel : bool) then
          Return (event, events)
        else
          r1 ← index row 1;
          r0 ← index row 0;
          r2 ← index row 2;
          events1 ← append_last (add_home (mkEntry r1 r0 (contains "ex" (lower r2)))) events;
          r7 ← index row 7;
          r6 ← index row 6;
          r5 ← index row 5;
          events2 ← append_last (add_away (mkEntry r7 r6 (contains "ex" (lower r5)))) events1;
          Return (times, events2)
    | exhib =>
        if (length row =? 1)%nat then
          Return (times, events ++ [mkEvent row0 [] []])
        else
          Return (exhib, events)
    end.

(** The loop [for row in results], threading the pair through. *)
Fixpoint parse_rows (st : ParseState * list EventResult)
    (results : list (list string)) : result (ParseState * list EventResult) :=
  match results with
  | [] => Return st
  | row :: rest => st1 ← parse_row st row; parse_rows st1 rest
  end.

(** The state before the first row: [events = []],
    [current_parse = "event"]. *)
Definition initial : ParseState * list EventResult := (event, []).

(** [fetch_meet_results], from the extracted [results] on: [results]
    holds the cell texts of the rows of the page's table.  The printing
    under [debug_print] has no part in the value returned. *)
Definition fetch_meet_results (results : list (list string))
    : result (list EventResult) :=
  st ← parse_rows initial results; Return (snd st).

(** ** Python's [int] and [float] on text

    The two built-in conversions, as CPython performs them.  Both
    first bring the text to ASCII, then skip surrounding white space,
    accept one sign and accept single underscores between digits;
    anything left over is a [ValueError]. *)

Local Open Scope Z_scope.

Definition is_digit (c : ascii) : bool :=
  let n := nat_of_ascii c in (48 <=? n)%nat && (n <=? 57)%nat.

Definition digit_value (c : ascii) : Z := Z.of_nat (nat_of_ascii c - 48).

Definition is_space (c : ascii) : bool :=
  let n := nat_of_ascii c in (n =? 32)%nat || ((9 <=? n)%nat && (n <=? 13)%nat).

(** White space beyond ASCII: NEL and NBSP. *)
Definition is_nel_nbsp (c : ascii) : bool :=
  let n := nat_of_ascii c in (n =? 133)%nat || (n =? 160)%nat.

(** A character beyond ASCII that is no white space; as no such
    character below 256 is a decimal digit, the text ends there in a
    question mark. *)
Definition ends_text (c : ascii) : bool :=
  (127 <=? nat_of_ascii c)%nat && negb (is_nel_nbsp c).

Definition ascii_char (c : ascii) : ascii :=
  if (nat_of_ascii c <? 127)%nat then c
  else if is_nel_nbsp c then " "%char else "?"%char.

(** The text as [int] and [float] parse it: white space beyond ASCII
    becomes a blank, and the text is cut after the first other
    character beyond ASCII. *)
Fixpoint ascii_text (s : list ascii) : list ascii :=
  match s with
  | [] => []
  | c :: rest =>
      if ends_text c then [ascii_char c] else ascii_char c :: ascii_text rest
  end.

Fixpoint lstrip (s : list ascii) : list ascii :=
  match s with
  | c :: rest => if is_space c then lstrip rest else s
  | [] => []
  end.

(** Only white space is left. *)
Definition at_end (s : list ascii) : bool :=
  match lstrip s with [] => true | _ => false end.

Definition take_sign (s : list ascii) : bool * list ascii :=
  match s with
  | c :: rest =>
      if Ascii.eqb c "+" then (false, rest)
      else if Ascii.eqb c "-" then (true, rest)
      else (false, s)
  | [] => (false, [])
  end.

Definition digits_value (ds : list ascii) : Z :=
  fold_left (fun a c => 10 * a + digit_value c) ds 0.

(** The digit scan of [int]: digits with single underscores between
    them; [prev_us] records that the previous character was an
    underscore. *)
Fixpoint scan_int (prev_us : bool) (acc : Z) (s : list ascii)
    : option (Z * list ascii) :=
  match s with
  | c :: rest =>
      if is_digit c then scan_int false (10 * acc + digit_value c) rest
      else if Ascii.eqb c "_" then
        (if prev_us then None else scan_int true acc rest)
      else if prev_us then None else Some (acc, s)
  | [] => if prev_us then None else Some (acc, [])
  end.

(** The digits that the scan of [int] runs over. *)
Fixpoint scanned_digits (s : list ascii) : Z :=
  match s with
  | c :: rest =>
      if is_digit c then 1 + scanned_digits rest
      else if Ascii.eqb c "_" then scanned_digits rest
      else 0
  | [] => 0
  end.

(** The limit of [int] on the digits of a text, as CPython 3.11 sets
    it. *)
Definition max_str_digits : Z := 4300.

(** [int(s)] for a string [s], base 10. *)
Definition py_int (s : string) : result Z :=
  let '(neg, s2) := take_sign (lstrip (ascii_text (list_ascii_of_string s))) in
  match s2 with
  | c :: _ =>
      if is_digit c then
        match scan_int false 0 s2 with
        | Some (n, rest) =>
            if max_str_digits <? scanned_digits s2 then Raise ValueError
            else if at_end rest then Return (if (neg : bool) then - n else n)
            else Raise ValueError
        | None => Raise ValueError
        end
      else Raise ValueError
  | [] => Raise ValueError
  end.

(** A Python float: binary64. *)
Definition float : Type := spec_float.
Definition prec : Z := 53.
Definition emax : Z := 1024.

Definition float_add : float -> float -> float := SFadd prec emax.

(** The binary64 number nearest to [m * 10 ^ e] (ties to even), for a
    natural number [m], with the sign [neg]. *)
Definition decimal_to_float (neg : bool) (m e : Z) : float :=
  match m with
  | Zpos p =>
      if 0 <=? e then binary_normalize prec emax (cond_Zopp neg (m * 10 ^ e)) 0 neg
      else SFdiv prec emax (S754_finite neg p 0)
                           (S754_finite false (Z.to_pos (10 ^ (- e))) 0)
  | _ => S754_zero neg
  end.

(** The conversion of an [int] operand in [int + float]; an integer
    beyond the binary64 range is an [OverflowError]. *)
Definition float_of_int (n : Z) : result float :=
  match binary_normalize prec emax n 0 false with
  | S754_infinity _ => Raise OverflowError
  | x => Return x
  end.

(** [float] first checks the underscores of the whole text and removes
    them: one is allowed only between two digits. *)
Fixpoint drop_underscores (prev : ascii) (s : list ascii)
    : option (list ascii) :=
  match s with
  | [] => if Ascii.eqb prev "_" then None else Some []
  | c :: rest =>
      if Ascii.eqb c "_" then
        (if is_digit prev then drop_underscores c rest else None)
      else if Ascii.eqb prev "_" && negb (is_digit c) then None
      else cons c <$> drop_underscores c rest
  end.

Fixpoint span_digits (s : list ascii) : list ascii * list ascii :=
  match s with
  | c :: rest =>
      if is_digit c then
        let '(ds, r) := span_digits rest in (c :: ds, r)
      else ([], s)
  | [] => ([], [])
  end.

(** [s] starts with the lower-case keyword [kw], in any case. *)
Fixpoint strip_keyword (kw s : list ascii) : option (list ascii) :=
  match kw with
  | [] => Some s
  | k :: kw' =>
      match s with
      | c :: rest =>
          if Ascii.eqb (lower_ascii c) k then strip_keyword kw' rest else None
      | [] => None
      end
  end.

(** A decimal literal: digits, an optional point and digits, at least
    one digit in all, and an exponent when one is well formed. *)
Definition parse_number (neg : bool) (s : list ascii)
    : option (float * list ascii) :=
  let '(ip, r1) := span_digits s in
  let '(fp, r2) :=
    match r1 with
    | c :: r => if Ascii.eqb c "." then span_digits r else ([], r1)
    | [] => ([], r1)
    end in
  match ip ++ fp with
  | [] => None
  | ds =>
      let m := digits_value ds in
      let e0 := - Z.of_nat (length fp) in
      match r2 with
      | c :: r =>
          if Ascii.eqb (lower_ascii c) "e" then
            let '(eneg, r3) := take_sign r in
            let '(ed, r4) := span_digits r3 in
            match ed with
            | [] => Some (decimal_to_float neg m e0, r2)
            | _ => Some (decimal_to_float neg m
                           (e0 + cond_Zopp eneg (digits_value ed)), r4)
            end
          else Some (decimal_to_float neg m e0, r2)
      | [] => Some (decimal_to_float neg m e0, [])
      end
  end.

(** ["inf"], ["infinity"] and ["nan"], in any case. *)
Definition parse_inf_nan (neg : bool) (s : list ascii)
    : option (float * list ascii) :=
  match strip_keyword (list_ascii_of_string "inf") s with
  | Some r =>
      match strip_keyword (list_ascii_of_string "inity") r with
      | Some r' => Some (S754_infinity neg, r')
      | None => Some (S754_infinity neg, r)
      end
  | None =>
      match strip_keyword (list_ascii_of_string "nan") s with
      | Some r => Some (S754_nan, r)
      | None => None
      end
  end.

(** [float(s)] for a string [s]. *)
Definition py_float (s : string) : result float :=
  match drop_underscores "000" (ascii_text (list_ascii_of_string s)) with
  | None => Raise ValueError
  | Some d =>
      let '(neg, s1) := take_sign (lstrip d) in
      match
        match parse_number neg s1 with
        | Some r => Some r
        | None => parse_inf_nan neg s1
        end
      with
      | Some (x, rest) => if at_end rest then Return x else Raise ValueError
      | None => Raise ValueError
      end
  end.

(** [s.split(sep)] for a one-character separator. *)
Fixpoint split (sep : ascii) (s : string) : list string :=
  match s with
  | EmptyString => [EmptyString]
  | String c rest =>
      if Ascii.eqb c sep then EmptyString :: split sep rest
      else
        match split sep rest with
        | h :: t => String c h :: t
        | [] => [String c EmptyString]
        end
  end.

(** ** The time parser: [time_to_float] *)

(** [float(time)]: the argument may be [None], which is a [TypeError]. *)
Definition float_arg (time : option string) : result float :=
  match time with
  | None => Raise TypeError
  | Some s => py_float s
  end.

(** Lines 99-104.  The handler catches [ValueError] only. *)
Definition time_to_float (time : option string) : result (option float) :=
  match float_arg time with
  | Return x => Return (Some x)
  | Raise ValueError =>
      match time with
      | None => Return None
      | Some s =>
          if contains "dq" (lower s) then Return None
          else
            p0 ← index (split ":" s) 0;
            minutes ← py_int p0;
            p1 ← index (split ":" s) 1;
            seconds ← py_float p1;
            total ← float_of_int (minutes * 60);
            Return (Some (float_add total seconds))
      end
  | Raise e => Raise e
  end.

(** ** The swimmer profile: [fetch_swimmer] *)

(** What the selectors of [fetch_swimmer] read off the document:
    [soup.select("table")] is a list of tables; of a table the function
    reads its [td] cells and its [tr] rows; of a cell, the texts of its
    [b] elements; of a row, its markup [str(i)] and its text [i.text]. *)
Record Cell : Type := mkCell { cell_b : list string }.
Record Row : Type := mkRow { row_str : string; row_text : string }.
Record Table : Type := mkTable { table_td : list Cell; table_tr : list Row }.
Abbreviation Document := (list Table).

(** Years of graduation to year name. *)
Definition graduation : gmap Z string :=
  {[ 2020 := "SR"; 2021 := "JR"; 2022 := "SO";
     2023 := "FR"; 2024 := "'8"; 2025 := "'7" ]}.

(** [graduation[code]]. *)
Definition graduation_lookup (code : Z) : result string :=
  match graduation !! code with
  | Some y => Return y
  | None => Raise KeyError
  end.

(** [s[:n]] and [s[n:]]. *)
Fixpoint str_take (n : nat) (s : string) : string :=
  match n, s with
  | S n', String c rest => String c (str_take n' rest)
  | _, _ => EmptyString
  end.

Fixpoint str_drop (n : nat) (s : string) : string :=
  match n, s with
  | S n', String _ rest => str_drop n' rest
  | _, _ => s
  end.

(** [info.select("td")[i].select("b")[0].text]. *)
Definition bold_text (info : Table) (i : nat) : result string :=
  td ← index (table_td info) i; index (cell_b td) 0.

Section Profile.

(** [datetime.strptime(_, "%m/%d/%Y")] is the date library's: a date,
    or no date, which is a [ValueError]. *)
Variable date : Type.
Variable strptime : string -> option date.

(** Modelled from the spec: the class [Swimmer.Time] of the module
    [swimmer], a performance with its event name, date and seconds
    (a float or the absence marker). *)
Record Time : Type := mkTime {
  time_event : string;
  time_date : date;
  time_seconds : option float
}.

(** Modelled from the spec: the class [Swimmer] of the module
    [swimmer], with a name, a class year and the performances
    [times], empty when the swimmer is created. *)
Record Swimmer : Type := mkSwimmer {
  swimmer_name : string;
  swimmer_year : string;
  swimmer_times : list Time
}.

Definition new_swimmer (name year : string) : Swimmer :=
  mkSwimmer name year [].

(** The argument of [swim.times.append] on lines 150-156. *)
Definition performance (current_event text : string) : result Time :=
  d ← (match strptime (str_take 10 text) with
       | Some d => Return d
       | None => Raise ValueError
       end);
  t ← time_to_float (Some (str_drop 13 text));
  Return (mkTime current_event d t).

(** The loop of lines 146-156 over the rows, threading
    [current_event] and [swim.times]; it stops at the first exception
    and keeps what was appended before. *)
Fixpoint scan_times (current_event : string) (acc : list Time)
    (rows : list Row) : list Time * option exn :=
  match rows with
  | [] => (acc, None)
  | i :: rest =>
      if contains "<b>" (row_str i) then scan_times (row_text i) acc rest
      else
        match performance current_event (row_text i) with
        | Return t => scan_times current_event (acc ++ [t]) rest
        | Raise e => (acc, Some e)
        end
  end.

(** The body of the [try], lines 143-156: the performances appended
    to [swim.times], and the exception that ended it, if any. *)
Definition performance_block (soup : Document) : list Time * option exn :=
  match index soup 2 with
  | Raise e => ([], Some e)
  | Return t =>
      match index (table_tr t) 0 with
      | Raise e => ([], Some e)
      | Return first => scan_times (row_text first) [] (table_tr t)
      end
  end.

(** Lines 130-140: the name and the class year. *)
Definition swimmer_info (soup : Document) : result (string * string) :=
  info ← index soup 0;
  last ← bold_text info 1;
  first ← bold_text info 2;
  year ← bold_text info 9;
  code ← py_int year;
  year ← graduation_lookup code;
  Return (String.append first (String.append " " last), year).

(** [fetch_swimmer], from the parsed document on.  [except IndexError:
    pass] lets an [IndexError] of the [try] body go and returns the
    swimmer as it is. *)
Definition fetch_swimmer (soup : Document) : result Swimmer :=
  ny ← swimmer_info soup;
  let swim := new_swimmer (fst ny) (snd ny) in
  match performance_block soup with
  | (ts, None) => Return (mkSwimmer (swimmer_name swim) (swimmer_year swim) ts)
  | (ts, Some IndexError) =>
      Return (mkSwimmer (swimmer_name swim) (swimmer_year swim) ts)
  | (_, Some e) => Raise e
  end.

End Profile.

Arguments mkTime {date}.
Arguments mkSwimmer {date}.
Arguments swimmer_name {date}.
Arguments swimmer_year {date}.
Arguments swimmer_times {date}.

(** ** Reference counts for the meet table *)

(** The first cell of the row carries the marker. *)
Definition has_marker (row : list string) : bool :=
  match row with
  | c :: _ => contains "Exhibition" c
  | [] => false
  end.

(** The single-cell "header" rows of a stream, those with the marker
    set aside. *)
Definition header_rows (rows : list (list string)) : nat :=
  length (filter (fun row => (length row =? 1)%nat && negb (has_marker row) = true) rows).

(** The sentinel row of a time block. *)
Definition is_sentinel (row : list string) : bool :=
  match row !! 0%nat, row !! 7%nat with
  | Some c0, Some c7 => String.eqb c0 "" && String.eqb c7 ""
  | _, _ => false
  end.

(** The state the parser is in after a row it accepts. *)
Definition next_state (st : ParseState) (row : list string) : ParseState :=
  if has_marker row then exhib
  else if (length row =? 1)%nat then times
  else
    match st with
    | event => times
    | times => if is_sentinel row then event else times
    | exhib => exhib
    end.

(** A row without the marker that is single-cell, or that is met in the
    [event] state. *)
Definition starts_event (st : ParseState) (row : list string) : bool :=
  negb (has_marker row) &&
  ((length row =? 1)%nat || match st with event => true | _ => false end).

Fixpoint event_starts (st : ParseState) (rows : list (list string)) : nat :=
  match rows with
  | [] => 0
  | row :: rest =>
      ((if starts_event st row then 1 else 0) + event_starts (next_state st row) rest)%nat
  end.

Definition balanced (e : EventResult) : Prop :=
  length (homeEntries e) = length (awayEntries e).

(** ** Reference notions for the time parser *)

Definition is_Return {A : Type} (r : result A) : bool :=
  match r with Return _ => true | Raise _ => false end.

(** The text left of the first colon; all of it when there is none. *)
Fixpoint before_colon (s : string) : string :=
  match s with
  | EmptyString => EmptyString
  | String c rest =>
      if Ascii.eqb c ":" then EmptyString else String c (before_colon rest)
  end.

(** Everything right of the first colon, when there is one. *)
Fixpoint after_colon (s : string) : option string :=
  match s with
  | EmptyString => None
  | String c rest => if Ascii.eqb c ":" then Some rest else after_colon rest
  end.

(** The minutes:seconds form: the part left of the first colon is a
    decimal integer and everything right of it a decimal float. *)
Definition min_sec_form (s : string) : bool :=
  match after_colon s with
  | Some r => is_Return (py_int (before_colon s)) && is_Return (py_float r)
  | None => false
  end.

(** The form the code goes by: the part left of the first colon is a
    decimal integer and the part between the first colon and the next
    one, or the end of the text, a decimal float. *)
Definition min_sec_head_form (s : string) : bool :=
  match after_colon s with
  | Some r =>
      is_Return (py_int (before_colon s)) &&
      is_Return (py_float (before_colon r))
  | None => false
  end.

(** A minutes text beyond the binary64 range: 1 followed by 309
    zeros. *)
Definition huge_minutes : string :=
  String "1" (string_of_list_ascii (repeat "0"%char 309)).

(** The no-break space, and a text of 4301 digits. *)
Definition nbsp : string := String "160"%char EmptyString.

Definition long_digits : string :=
  string_of_list_ascii (repeat "0"%char 4300 ++ ["1"%char]).

(** The characters a text that [int] or [float] accepts is made of. *)
Definition number_char (c : ascii) : bool :=
  let a := ascii_char c in
  is_digit a || is_space a ||
  existsb (Ascii.eqb (lower_ascii a)) (list_ascii_of_string "+-._einfatyn").

(** ** Reference notions for the profile *)

(** The lookup table of the class years, entry by entry. *)
Definition class_year_table (code : Z) : option string :=
  if code =? 2020 then Some "SR"
  else if code =? 2021 then Some "JR"
  else if code =? 2022 then Some "SO"
  else if code =? 2023 then Some "FR"
  else if code =? 2024 then Some "'8"
  else if code =? 2025 then Some "'7"
  else None.

(** A metadata table: the last name in cell 1, the first name in cell 2
    and the graduation year in cell 9, each in a [b] element. *)
Definition info_table (last first year : string) : Table :=
  mkTable
    [mkCell []; mkCell [last]; mkCell [first]; mkCell []; mkCell [];
     mkCell []; mkCell []; mkCell []; mkCell []; mkCell [year]]
    [].

Definition empty_table : Table := mkTable [] [].

(** ** The table of a meet page *)

(** [l[1:-1]]. *)
Definition slice_inner {A : Type} (l : list A) : list A :=
  take (length l - 2) (drop 1 l).

(** [fetch_meet_results], from the parsed page on, lines 25-84:
    [selected] holds the tables that the selector matches, each as the
    cell texts of its [tr] rows. *)
Definition fetch_meet_page (selected : list (list (list string)))
    : result (list EventResult) :=
  table ← index selected 0;
  fetch_meet_results (slice_inner table).

(** ** The list scrapers *)

(** An element as the scrapers read it: its text and its attributes. *)
Record Tag : Type := mkTag {
  tag_text : string;
  tag_attrs : gmap string string
}.

(** [t[key]]: a missing attribute is a [KeyError]. *)
Definition attr (t : Tag) (key : string) : result string :=
  match tag_attrs t !! key with
  | Some v => Return v
  | None => Raise KeyError
  end.

(** [str(t.get(key))]: a missing attribute reads as the text of [None]. *)
Definition attr_str (t : Tag) (key : string) : string :=
  match tag_attrs t !! key with
  | Some v => v
  | None => "None"
  end.

(** [l[-k]] for [k] at least 1. *)
Definition index_back {A : Type} (l : list A) (k : nat) : result A :=
  if (k <=? length l)%nat then index l (length l - k) else Raise IndexError.

(** A loop [for i in items] whose body appends to one list: [body i]
    is what the body appends for [i]. *)
Fixpoint for_append {A B : Type} (body : A -> result (list B))
    (acc : list B) (items : list A) : result (list B) :=
  match items with
  | [] => Return acc
  | i :: rest => new ← body i; for_append body (acc ++ new) rest
  end.

(** [fetch_team_urls], from the [option] elements of the page on. *)
Definition fetch_team_urls (dropdown : list Tag) : result (list (string * string)) :=
  for_append
    (fun i => value ← attr i "value"; Return [(tag_text i, value)])
    [] (drop 1 dropdown).

(** [fetch_swimmer_urls], from the tables of the page on, each as its
    [a] elements.  The test [i is not None] holds for every element
    that [find_all] returns. *)
Definition fetch_swimmer_urls (tables : list (list Tag))
    : result (list (string * string)) :=
  table ← index_back tables 1;
  for_append
    (fun i =>
       href ← attr i "href";
       Return [(tag_text i, String.append "http://www.swimdata.info" href)])
    [] table.

(** A row of the meet-history table: the texts of its [td] cells and
    its [a] elements. *)
Record MeetRow : Type := mkMeetRow {
  tr_td : list string;
  tr_a : list Tag
}.

(** [fetch_meet_urls], from the tables of the page on, each as its
    rows; an entry is the list [[text, date, url]]. *)
Definition fetch_meet_urls (tables : list (list MeetRow))
    : result (list (string * string * string)) :=
  table ← index_back tables 3;
  for_append
    (fun i =>
       if (0 <? length (tr_a i))%nat then
         t1 ← index (tr_td i) 1;
         t0 ← index (tr_td i) 0;
         a ← index (tr_a i) 0;
         href ← attr a "href";
         Return [(t1, t0, href)]
       else Return [])
    [] table.

(** White space for [str.strip]. *)
Definition is_whitespace (c : ascii) : bool :=
  let n := nat_of_ascii c in
  ((9 <=? n)%nat && (n <=? 13)%nat) || ((28 <=? n)%nat && (n <=? 32)%nat) ||
  (n =? 133)%nat || (n =? 160)%nat.

Fixpoint str_lstrip (s : string) : string :=
  match s with
  | EmptyString => EmptyString
  | String c rest => if is_whitespace c then str_lstrip rest else s
  end.

Fixpoint str_rstrip (s : string) : string :=
  match s with
  | EmptyString => EmptyString
  | String c rest =>
      match str_rstrip rest with
      | EmptyString => if is_whitespace c then EmptyString else String c EmptyString
      | rest' => String c rest'
      end
  end.

(** [s.strip()]. *)
Definition strip (s : string) : string := str_rstrip (str_lstrip s).

Definition base_url : string := "http://www.section3swim.com".

Definition meets_url : string :=
  "http://www.swimdata.info/NYState/Sec3/BSwimMeet.nsf/Meets?OpenView".

Section Crawl.

(** The [a] elements of the page behind a url. *)
Variable get : string -> list Tag.

(** The loop of lines 248-250 over the links of the index page. *)
Definition date_link (link : Tag) : result (list (string * string)) :=
  if negb (String.eqb (strip (tag_text link)) "") then
    href ← attr link "href";
    Return [(strip (tag_text link), String.append base_url href)]
  else Return [].

(** The loop of lines 260-262 over the links of one date page. *)
Definition meet_link (link : Tag) : result (list string) :=
  if contains "Meet%20List" (attr_str link "href") then
    href ← attr link "href";
    Return [String.append base_url href]
  else Return [].

(** [fetch_all_meet_urls], with the pages read through [get]. *)
Definition fetch_all_meet_urls : result (list string) :=
  date_urls ← for_append date_link [] (get meets_url);
  for_append
    (fun date => for_append meet_link [] (get (snd date)))
    [] date_urls.

End Crawl.

(** ** Reference notions for the further properties *)

(** A row with one cell, or with at least the eight cells that a time
    block reads. *)
Definition row_ok (row : list string) : bool :=
  (length row =? 1)%nat || (8 <=? length row)%nat.

(** The first cells of the rows that start an event. *)
Fixpoint started_names (st : ParseState) (rows : list (list string)) : list string :=
  match rows with
  | [] => []
  | row :: rest =>
      (if starts_event st row then
         match row with c :: _ => [c] | [] => [] end
       else []) ++ started_names (next_state st row) rest
  end.

(** A row of a time block that is no marker, no header and no
    sentinel. *)
Definition is_data_row (st : ParseState) (row : list string) : bool :=
  negb (has_marker row) && negb (length row =? 1)%nat &&
  match st with times => negb (is_sentinel row) | _ => false end.

Fixpoint data_rows (st : ParseState) (rows : list (list string)) : nat :=
  match rows with
  | [] => 0
  | row :: rest =>
      ((if is_data_row st row then 1 else 0) + data_rows (next_state st row) rest)%nat
  end.

Definition home_total (events : list EventResult) : nat :=
  foldr (fun e n => (length (homeEntries e) + n)%nat) 0%nat events.

(** A row of the performance table in heading style. *)
Definition is_heading (i : Row) : bool := contains "<b>" (row_str i).

Definition plain_rows (rows : list Row) : nat :=
  length (filter (fun i => is_heading i = false) rows).

Definition has_attr (key : string) (t : Tag) : bool :=
  match tag_attrs t !! key with Some _ => true | None => false end.

Definition anchor (text href : string) : Tag := mkTag text {[ "href" := href ]}.

Definition bare (text : string) : Tag := mkTag text ∅.

(** A row of the meet-history table with a link in it. *)
Definition has_links (i : MeetRow) : bool := (0 <? length (tr_a i))%nat.

(** A url of a meet list: the site prefix, then an [href] with the
    marker of the meet lists in it. *)
Definition meet_list_url (u : string) : Prop :=
  exists href, u = String.append base_url href /\
               contains "Meet%20List" href = true.


(** A site of two pages: the index of the dates and one date page. *)
Definition sample_site (url : string) : list Tag :=
  if String.eqb url meets_url then
    [anchor " 12/01/2019 " "/dates/1"; bare " "]
  else if String.eqb url "http://www.section3swim.com/dates/1" then
    [anchor "Auburn at Oswego" "/Meet%20List?1"; bare "top";
     anchor "home" "/index"]
  else [].

(** A performance table: a heading and two rows under it. *)
Definition sample_times : Table :=
  mkTable []
    [mkRow "<tr><td><b>50 Free</b></td></tr>" "50 Free";
     mkRow "<tr><td>01/02/2020 - 24.5</td></tr>" "01/02/2020 - 24.5";
     mkRow "<tr><td>02/03/2020 - DQ</td></tr>" "02/03/2020 - DQ"].

Definition sample_profile : Document :=
  [info_table "Doe" "John" "2023"; empty_table; sample_times].

(** * Properties *)

#[local] Arguments Ascii.eqb : simpl never.
#[local] Arguments String.eqb : simpl never.
#[local] Arguments lower_ascii : simpl never.
#[local] Arguments is_digit : simpl never.
#[local] Arguments is_space : simpl never.
#[local] Arguments number_char : simpl never.
#[local] Arguments ascii_char : simpl never.
#[local] Arguments ends_text : simpl never.

(** A fact about one character, checked on each of the 256. *)
Ltac by_cases_on_ascii c :=
  destruct c as [[] [] [] [] [] [] [] []]; vm_compute; congruence.

(** ** The error monad *)

Lemma bind_Return {A B : Type} (m : result A) (k : A -> result B) (b : B) :
  (m ≫= k) = Return b -> exists a, m = Return a /\ k a = Return b.
Proof. destruct m as [a|e]; simpl; [eauto | discriminate]. Qed.

Lemma bind_Raise {A B : Type} (m : result A) (k : A -> result B) (e : exn) :
  (m ≫= k) = Raise e ->
  m = Raise e \/ exists a, m = Return a /\ k a = Raise e.
Proof. destruct m as [a|e']; simpl; [eauto | intros [= ->]; auto]. Qed.

Lemma index_Raise {A : Type} (l : list A) (i : nat) (e : exn) :
  index l i = Raise e -> e = IndexError.
Proof. unfold index. destruct (l !! i); congruence. Qed.

Lemma index_Return {A : Type} (l : list A) (i : nat) (a : A) :
  index l i = Return a <-> l !! i = Some a.
Proof. unfold index. destruct (l !! i); split; congruence. Qed.

(** ** The meet table *)

Lemma append_last_snoc f init e :
  append_last f (init ++ [e]) = Return (init ++ [f e]).
Proof.
  unfold append_last. destruct (init ++ [e]) eqn:E.
  - destruct init; discriminate.
  - rewrite <- E. f_equal. rewrite length_app. simpl.
    replace (pred (length init + 1)) with (length init + 0)%nat by lia.
    rewrite (alter_app_r f init [e] 0). reflexivity.
Qed.

Lemma append_last_Return f evs evs' :
  append_last f evs = Return evs' ->
  exists init e, evs = init ++ [e] /\ evs' = init ++ [f e].
Proof.
  destruct evs as [|x l] using rev_ind.
  - discriminate.
  - rewrite append_last_snoc. intros [= <-]. eauto.
Qed.

Lemma append_last_Raise f evs e :
  append_last f evs = Raise e -> e = IndexError.
Proof. destruct evs; simpl; congruence. Qed.

(** Every exception of the row parser is an [IndexError]. *)
Lemma parse_row_Raise st row e :
  parse_row st row = Raise e -> e = IndexError.
Proof.
  destruct st as [cp evs]. unfold parse_row.
  repeat first
    [ congruence
    | match goal with
      | |- (_ ≫= _) = Raise _ -> _ =>
          let H := fresh in
          intros H; apply bind_Raise in H as [H | (? & _ & H)];
          [ first [ apply index_Raise in H | apply append_last_Raise in H
                  | revert H ] | revert H ]
      | |- (if ?b then _ else _) = Raise _ -> _ => destruct b
      | |- match ?x with _ => _ end = Raise _ -> _ => destruct x
      | |- _ = _ -> _ => intros ?
      end ]; try assumption.
Qed.

Lemma parse_rows_Raise rows st e :
  parse_rows st rows = Raise e -> e = IndexError.
Proof.
  revert st. induction rows as [|row rest IH]; intros st; simpl.
  - discriminate.
  - intros H. apply bind_Raise in H as [H | (st' & _ & H)].
    + eapply parse_row_Raise; eauto.
    + eapply IH; eauto.
Qed.

Lemma parse_rows_app rows1 rows2 st :
  parse_rows st (rows1 ++ rows2) =
  (parse_rows st rows1 ≫= fun st1 => parse_rows st1 rows2).
Proof.
  revert st. induction rows1 as [|row rest IH]; intros st; simpl.
  - reflexivity.
  - destruct (parse_row st row); simpl; auto.
Qed.

Lemma parse_row_marker st events c cells :
  contains "Exhibition" c = true ->
  parse_row (st, events) (c :: cells) = Return (exhib, events).
Proof. intros H. unfold parse_row. simpl. rewrite H. reflexivity. Qed.

(** A data row of a time block gives the last event one more home entry
    and one more away entry, and changes nothing else. *)
Lemma parse_row_data events row st' events' :
  parse_row (times, events) row = Return (st', events') ->
  has_marker row = false -> (length row =? 1)%nat = false ->
  is_sentinel row = false ->
  exists init e h a,
    events = init ++ [e] /\ st' = times /\
    events' = init ++ [add_away a (add_home h e)].
Proof.
  unfold parse_row, has_marker, is_sentinel. intros H Hm Hl Hs.
  apply bind_Return in H as (c0 & H0 & H). apply index_Return in H0.
  destruct row as [|c cells]; [discriminate|]. simpl in H0. injection H0 as ->.
  rewrite Hm, Hl in H.
  apply bind_Return in H as (b & Hb & H).
  assert (b = false) as ->.
  { simpl in Hs. destruct (String.eqb c0 ""); [|congruence].
    apply bind_Return in Hb as (c7 & H7 & Hb). apply index_Return in H7.
    simpl in H7. rewrite H7 in Hs. simpl in Hs. congruence. }
  repeat (apply bind_Return in H as (? & ? & H)).
  match goal with
  | H1 : append_last _ events = Return ?x |- _ =>
      apply append_last_Return in H1 as (init & e & -> & ->)
  end.
  match goal with
  | H1 : append_last _ _ = Return ?x |- _ =>
      rewrite append_last_snoc in H1; injection H1 as <-
  end.
  injection H as <- <-. eauto 8.
Qed.

(** What a row the parser accepts does to the state and to the number
    of events. *)
Lemma parse_row_Return st events row st' events' :
  parse_row (st, events) row = Return (st', events') ->
  st' = next_state st row /\
  length events' = ((if starts_event st row then 1 else 0) + length events)%nat /\
  (Forall balanced events -> Forall balanced events').
Proof.
  intros H.
  destruct (has_marker row) eqn:Hm.
  { destruct row as [|c cells]; [discriminate|]. simpl in Hm.
    rewrite (parse_row_marker _ _ _ _ Hm) in H. injection H as <- <-.
    unfold next_state, starts_event. simpl. rewrite Hm. auto. }
  destruct (length row =? 1)%nat eqn:Hl.
  { unfold parse_row in H. apply bind_Return in H as (c0 & H0 & H).
    destruct row as [|c cells]; [discriminate|]. simpl in Hm.
    apply index_Return in H0. injection H0 as ->.
    rewrite Hm, Hl in H. injection H as <- <-.
    unfold next_state, starts_event, has_marker. rewrite Hm, Hl. simpl.
    rewrite length_app. simpl. repeat split; [lia|].
    intros HF. apply Forall_app. split; [assumption|].
    constructor; [reflexivity | constructor]. }
  destruct st.
  - unfold parse_row in H. apply bind_Return in H as (c0 & H0 & H).
    destruct row as [|c cells]; [discriminate|]. simpl in Hm.
    apply index_Return in H0. injection H0 as ->.
    rewrite Hm, Hl in H. injection H as <- <-.
    unfold next_state, starts_event, has_marker. rewrite Hm, Hl. simpl.
    rewrite length_app. simpl. repeat split; [lia|].
    intros HF. apply Forall_app. split; [assumption|].
    constructor; [reflexivity | constructor].
  - destruct (is_sentinel row) eqn:Hs.
    + unfold parse_row in H. apply bind_Return in H as (c0 & H0 & H).
      destruct row as [|c cells]; [discriminate|]. simpl in Hm.
      apply index_Return in H0. injection H0 as ->.
      rewrite Hm, Hl in H. unfold is_sentinel in Hs. simpl in Hs.
      destruct (cells !! 6%nat) as [c7|] eqn:H7; [|discriminate].
      apply andb_prop in Hs as [Hs0 Hs7]. rewrite Hs0 in H.
      unfold index in H. simpl in H. rewrite H7 in H. simpl in H.
      rewrite Hs7 in H. injection H as <- <-.
      unfold next_state, starts_event, is_sentinel, has_marker.
      rewrite Hm, Hl. simpl. rewrite H7, Hs0, Hs7. auto.
    + destruct (parse_row_data _ _ _ _ H Hm Hl Hs)
        as (init & e & h & a & -> & -> & ->).
      unfold next_state, starts_event. rewrite Hm, Hl, Hs. simpl.
      rewrite !length_app. simpl. repeat split.
      intros HF. apply Forall_app in HF as [HF He].
      apply Forall_app. split; [assumption|].
      constructor; [|constructor]. inversion He as [|? ? Hb _]; subst.
      unfold balanced in *. simpl. rewrite !length_app, Hb. reflexivity.
  - unfold parse_row in H. apply bind_Return in H as (c0 & H0 & H).
    destruct row as [|c cells]; [discriminate|]. simpl in Hm.
    apply index_Return in H0. injection H0 as ->.
    rewrite Hm, Hl in H. injection H as <- <-.
    unfold next_state, starts_event, has_marker. rewrite Hm, Hl. auto.
Qed.

Lemma parse_rows_Return rows st events st' events' :
  parse_rows (st, events) rows = Return (st', events') ->
  length events' = (event_starts st rows + length events)%nat /\
  (Forall balanced events -> Forall balanced events').
Proof.
  revert st events. induction rows as [|row rest IH]; intros st events; simpl.
  - intros [= <- <-]. auto.
  - intros H. apply bind_Return in H as ([st1 events1] & H1 & H).
    apply parse_row_Return in H1 as (-> & Hlen & Hbal).
    apply IH in H as [Hlen' Hbal']. split; [lia | auto].
Qed.

(** C1, as the code has it.  On the three rows of the example the
    parser returns one event named "100 Free" and is back in the
    [event] state; the away entry has time "1:01.30" and name "B"; the
    home entry is built as [[row[1], row[0], exhib]], so its time is
    cell 1, "A", and its name is cell 0, "58.21"; both flags are
    false. *)
Theorem example_stream_parsed :
  parse_rows initial
    [["100 Free"];
     ["58.21"; "A"; ""; " "; ""; ""; "B"; "1:01.30"; ""];
     [""; ""; ""; ""; ""; ""; ""; ""]]
  = Return (event,
            [mkEvent "100 Free"
               [mkEntry "A" "58.21" false]
               [mkEntry "1:01.30" "B" false]]).
Proof. reflexivity. Qed.

(** C1 as stated fails: the home entry of the example does not have
    time "58.21" and name "A". *)
Lemma example_stream_home_entry_swapped :
  parse_rows initial
    [["100 Free"];
     ["58.21"; "A"; ""; " "; ""; ""; "B"; "1:01.30"; ""];
     [""; ""; ""; ""; ""; ""; ""; ""]]
  <> Return (event,
             [mkEvent "100 Free"
                [mkEntry "58.21" "A" false]
                [mkEntry "1:01.30" "B" false]]).
Proof. intros H. vm_compute in H. discriminate H. Qed.

(** C2.  A row whose first cell contains "Exhibition" puts the parser
    in the [exhib] state and leaves the events as they are, whatever
    the state and whatever the number of cells. *)
Theorem exhibition_marker_overrides
    (st : ParseState) (events : list EventResult) (row : list string) (c : string) :
  row !! 0%nat = Some c ->
  contains "Exhibition" c = true ->
  parse_row (st, events) row = Return (exhib, events).
Proof.
  intros H0 Hc. destruct row as [|c' cells]; [discriminate|].
  injection H0 as ->. apply parse_row_marker. assumption.
Qed.

Lemma exhibition_marker_overrides_witness :
  parse_row (times, [mkEvent "100 Free" [] []]) ["Exhibition"; "50 Free"] =
  Return (exhib, [mkEvent "100 Free" [] []]).
Proof.
  apply (exhibition_marker_overrides times [mkEvent "100 Free" [] []]
           ["Exhibition"; "50 Free"] "Exhibition");
    reflexivity.
Defined.

(** C3.  In the output of a run that completes, every event has as many
    home entries as away entries. *)
Theorem home_away_equal_length
    (rows : list (list string)) (events : list EventResult) :
  fetch_meet_results rows = Return events ->
  Forall (fun e => length (homeEntries e) = length (awayEntries e)) events.
Proof.
  unfold fetch_meet_results. intros H.
  apply bind_Return in H as ([st events'] & H & [= <-]). simpl.
  apply parse_rows_Return in H as [_ H]. apply H. constructor.
Qed.

Lemma home_away_equal_length_witness :
  Forall (fun e => length (homeEntries e) = length (awayEntries e))
    [mkEvent "100 Free" [mkEntry "A" "58.21" false] [mkEntry "1:01.30" "B" false]].
Proof.
  apply (home_away_equal_length
           [["100 Free"];
            ["58.21"; "A"; ""; " "; ""; ""; "B"; "1:01.30"; ""];
            [""; ""; ""; ""; ""; ""; ""; ""]]).
  reflexivity.
Defined.

(** C4 as stated fails: a row of two cells met in the [event] state
    starts an event, and is no single-cell row. *)
Lemma multi_cell_row_starts_event :
  exists events,
    fetch_meet_results [["200 Medley Relay"; ""]] = Return events /\
    length events <> header_rows [["200 Medley Relay"; ""]].
Proof.
  exists [mkEvent "200 Medley Relay" [] []]. split; [reflexivity|].
  vm_compute. discriminate.
Qed.

(** C4, as the code has it.  In the output of a run that completes, the
    number of events is the number of rows without the marker that are
    single-cell or are met in the [event] state. *)
Theorem event_count (rows : list (list string)) (events : list EventResult) :
  fetch_meet_results rows = Return events ->
  length events = event_starts event rows.
Proof.
  unfold fetch_meet_results. intros H.
  apply bind_Return in H as ([st events'] & H & [= <-]). simpl.
  apply parse_rows_Return in H as [H _]. simpl in H. lia.
Qed.

Lemma event_count_witness :
  length [mkEvent "200 Medley Relay" [] []; mkEvent "100 Free" [] []] =
  event_starts event [["200 Medley Relay"; ""]; ["Exhibition"]; ["100 Free"]].
Proof.
  apply (event_count [["200 Medley Relay"; ""]; ["Exhibition"]; ["100 Free"]]).
  reflexivity.
Defined.

(** C10.  A row without cells raises [IndexError] at the marker check,
    in every state, and so does every stream that contains one. *)
Theorem empty_row_raises :
  (forall (st : ParseState) (events : list EventResult),
      parse_row (st, events) [] = Raise IndexError) /\
  (forall pre post : list (list string),
      fetch_meet_results (pre ++ [] :: post) = Raise IndexError).
Proof.
  split; [reflexivity|]. intros pre post.
  unfold fetch_meet_results. rewrite parse_rows_app.
  destruct (parse_rows initial pre) as [[st events]|e] eqn:E; simpl.
  - reflexivity.
  - apply parse_rows_Raise in E. subst. reflexivity.
Qed.

(** ** Characters and strings *)

Lemma digit_not_space c : is_digit c = true -> is_space c = false.
Proof. by_cases_on_ascii c. Qed.

Lemma digit_not_underscore c : is_digit c = true -> Ascii.eqb c "_" = false.
Proof. by_cases_on_ascii c. Qed.

Lemma space_not_digit c : is_space c = true -> is_digit c = false.
Proof. by_cases_on_ascii c. Qed.

Lemma space_not_underscore c : is_space c = true -> Ascii.eqb c "_" = false.
Proof. by_cases_on_ascii c. Qed.

Lemma space_not_point c : is_space c = true -> Ascii.eqb c "." = false.
Proof. by_cases_on_ascii c. Qed.

Lemma space_not_e c : is_space c = true -> Ascii.eqb (lower_ascii c) "e" = false.
Proof. by_cases_on_ascii c. Qed.

Lemma digit_number_char c : is_digit c = true -> number_char c = true.
Proof. by_cases_on_ascii c. Qed.

Lemma space_number_char c : is_space c = true -> number_char c = true.
Proof. by_cases_on_ascii c. Qed.

Lemma number_char_not_colon c : number_char c = true -> Ascii.eqb c ":" = false.
Proof. by_cases_on_ascii c. Qed.

Lemma number_char_not_d c :
  number_char c = true -> Ascii.eqb (lower_ascii c) "d" = false.
Proof. by_cases_on_ascii c. Qed.

Lemma list_ascii_of_string_app s1 s2 :
  list_ascii_of_string (String.append s1 s2) =
  list_ascii_of_string s1 ++ list_ascii_of_string s2.
Proof. induction s1 as [|c s1 IH]; simpl; [reflexivity | by rewrite IH]. Qed.

(** A text in which "dq" occurs, in any case, has a "d" or a "D". *)
Lemma contains_dq_has_d s :
  contains "dq" (lower s) = true ->
  existsb (fun c => Ascii.eqb (lower_ascii c) "d") (list_ascii_of_string s) = true.
Proof.
  induction s as [|c s IH]; simpl.
  - discriminate.
  - intros H. apply orb_prop in H as [H|H].
    + apply andb_prop in H as [H _]. rewrite Ascii.eqb_sym, H. reflexivity.
    + rewrite (IH H). apply orb_true_r.
Qed.

Lemma number_chars_no_d l :
  forallb number_char l = true ->
  existsb (fun c => Ascii.eqb (lower_ascii c) "d") l = false.
Proof.
  induction l as [|c l IH]; simpl; [auto|].
  intros H. apply andb_prop in H as [Hc H].
  by rewrite (number_char_not_d _ Hc), IH.
Qed.

Lemma no_d_no_dq s :
  existsb (fun c => Ascii.eqb (lower_ascii c) "d") (list_ascii_of_string s) = false ->
  contains "dq" (lower s) = false.
Proof.
  intros H. destruct (contains "dq" (lower s)) eqn:E; [|reflexivity].
  apply contains_dq_has_d in E. congruence.
Qed.

Lemma number_chars_no_colon s :
  forallb number_char (list_ascii_of_string s) = true ->
  before_colon s = s /\ after_colon s = None.
Proof.
  induction s as [|c s IH]; simpl; [auto|].
  intros H. apply andb_prop in H as [Hc H].
  rewrite (number_char_not_colon _ Hc).
  destruct (IH H) as [-> ->]. auto.
Qed.

(** ** [split] against the two reference functions *)

Lemma split_cons sep s : exists h t, split sep s = h :: t.
Proof.
  destruct s as [|c s]; simpl; [eauto|].
  destruct (Ascii.eqb c sep); [eauto|].
  destruct (split sep s); eauto.
Qed.

Lemma split_head s : split ":" s !! 0%nat = Some (before_colon s).
Proof.
  induction s as [|c s IH]; simpl; [reflexivity|].
  destruct (Ascii.eqb c ":"); [reflexivity|].
  destruct (split_cons ":" s) as (h & t & E). rewrite E in *.
  simpl in *. congruence.
Qed.

Lemma split_second s :
  split ":" s !! 1%nat = before_colon <$> after_colon s.
Proof.
  induction s as [|c s IH]; simpl; [reflexivity|].
  destruct (Ascii.eqb c ":").
  - simpl. apply split_head.
  - destruct (split_cons ":" s) as (h & t & E). rewrite E in *.
    simpl in *. assumption.
Qed.

Lemma before_colon_app M S :
  before_colon M = M -> before_colon (String.append M (String ":" S)) = M.
Proof.
  induction M as [|c M IH]; simpl; [reflexivity|].
  destruct (Ascii.eqb c ":"); [discriminate|].
  intros [= H]. by rewrite IH.
Qed.

Lemma after_colon_app M S :
  after_colon M = None -> after_colon (String.append M (String ":" S)) = Some S.
Proof.
  induction M as [|c M IH]; simpl; [reflexivity|].
  destruct (Ascii.eqb c ":"); [discriminate | assumption].
Qed.

(** ** [int] and [float]: the characters of an accepted text *)

Lemma sign_number_char c :
  Ascii.eqb c "+" = true \/ Ascii.eqb c "-" = true \/
  Ascii.eqb c "." = true \/ Ascii.eqb c "_" = true \/
  Ascii.eqb (lower_ascii c) "e" = true ->
  number_char c = true.
Proof.
  destruct c as [[] [] [] [] [] [] [] []]; vm_compute; intuition congruence.
Qed.

Lemma keyword_number_char c k :
  Ascii.eqb (lower_ascii c) k = true ->
  existsb (Ascii.eqb k) (list_ascii_of_string "infatyn") = true ->
  number_char c = true.
Proof.
  intros H. apply Ascii.eqb_eq in H as <-.
  destruct c as [[] [] [] [] [] [] [] []]; vm_compute; congruence.
Qed.

Lemma lstrip_chars (P : ascii -> bool) l :
  (forall c, is_space c = true -> P c = true) ->
  forallb P (lstrip l) = true -> forallb P l = true.
Proof.
  intros HP. induction l as [|c l IH]; simpl; [auto|].
  destruct (is_space c) eqn:E; [|auto].
  intros H. rewrite (HP _ E), (IH H). reflexivity.
Qed.

Lemma lstrip_spaces l : lstrip l = [] -> forallb is_space l = true.
Proof.
  induction l as [|c l IH]; simpl; [auto|].
  destruct (is_space c); [auto | discriminate].
Qed.

Lemma at_end_spaces l : at_end l = true <-> forallb is_space l = true.
Proof.
  unfold at_end. split.
  - destruct (lstrip l) eqn:E; [|discriminate]. intros _. by apply lstrip_spaces.
  - induction l as [|c l IH]; simpl; [auto|].
    destruct (is_space c); [auto | discriminate].
Qed.

Lemma take_sign_app l neg r :
  take_sign l = (neg, r) ->
  exists pre, l = pre ++ r /\ forallb number_char pre = true.
Proof.
  destruct l as [|c l]; simpl.
  - intros [= <- <-]. by exists [].
  - destruct (Ascii.eqb c "+") eqn:E1; [|destruct (Ascii.eqb c "-") eqn:E2];
      intros [= <- <-].
    + exists [c]. simpl. rewrite sign_number_char; auto.
    + exists [c]. simpl. rewrite sign_number_char; auto.
    + by exists [].
Qed.

Lemma span_digits_app s ds r :
  span_digits s = (ds, r) -> s = ds ++ r /\ forallb is_digit ds = true.
Proof.
  revert ds r. induction s as [|c s IH]; simpl; intros ds r.
  - intros [= <- <-]. auto.
  - destruct (is_digit c) eqn:E.
    + destruct (span_digits s) as [ds' r']. intros [= <- <-].
      destruct (IH _ _ eq_refl) as [-> H]. simpl. rewrite E. auto.
    + intros [= <- <-]. auto.
Qed.

Lemma digits_number_chars ds :
  forallb is_digit ds = true -> forallb number_char ds = true.
Proof.
  induction ds as [|c ds IH]; simpl; [auto|].
  intros H. apply andb_prop in H as [Hc H].
  rewrite (digit_number_char _ Hc). auto.
Qed.

Lemma strip_keyword_app kw s r :
  strip_keyword kw s = Some r ->
  forallb (fun k => existsb (Ascii.eqb k) (list_ascii_of_string "infatyn")) kw = true ->
  exists pre, s = pre ++ r /\ forallb number_char pre = true.
Proof.
  revert s. induction kw as [|k kw IH]; simpl; intros s.
  - intros [= ->] _. by exists [].
  - destruct s as [|c s]; [discriminate|].
    destruct (Ascii.eqb (lower_ascii c) k) eqn:E; [|discriminate].
    intros H Hk. apply andb_prop in Hk as [Hk Hkw].
    destruct (IH _ H Hkw) as (pre & -> & Hpre).
    exists (c :: pre). simpl. rewrite (keyword_number_char _ _ E Hk). auto.
Qed.

Lemma scan_int_app prev_us acc s n r :
  scan_int prev_us acc s = Some (n, r) ->
  exists pre, s = pre ++ r /\ forallb number_char pre = true.
Proof.
  revert prev_us acc. induction s as [|c s IH]; simpl; intros prev_us acc.
  - destruct prev_us; [discriminate|]. intros [= <- <-]. by exists [].
  - destruct (is_digit c) eqn:Ed.
    + intros H. destruct (IH _ _ H) as (pre & -> & Hpre).
      exists (c :: pre). simpl. rewrite (digit_number_char _ Ed). auto.
    + destruct (Ascii.eqb c "_") eqn:Eu.
      * destruct prev_us; [discriminate|]. intros H.
        destruct (IH _ _ H) as (pre & -> & Hpre).
        exists (c :: pre). simpl. rewrite sign_number_char; auto.
      * destruct prev_us; [discriminate|]. intros [= <- <-]. by exists [].
Qed.

Lemma drop_underscores_chars (P : ascii -> bool) prev s d :
  drop_underscores prev s = Some d ->
  (forall c, Ascii.eqb c "_" = true -> P c = true) ->
  forallb P d = true -> forallb P s = true.
Proof.
  intros H HP. revert prev d H. induction s as [|c s IH]; simpl; intros prev d.
  - auto.
  - destruct (Ascii.eqb c "_") eqn:Eu.
    + destruct (is_digit prev); [|discriminate].
      intros H Hd. rewrite (HP _ Eu). eauto.
    + destruct (Ascii.eqb prev "_" && negb (is_digit c)); [discriminate|].
      destruct (drop_underscores c s) as [d'|] eqn:E; [|discriminate].
      intros [= <-]. simpl. intros Hd. apply andb_prop in Hd as [-> Hd]. eauto.
Qed.

Lemma parse_number_app neg s x r :
  parse_number neg s = Some (x, r) ->
  exists pre, s = pre ++ r /\ forallb number_char pre = true.
Proof.
  unfold parse_number.
  destruct (span_digits s) as [ip r1] eqn:E1.
  apply span_digits_app in E1 as [-> Hip]. apply digits_number_chars in Hip.
  assert (forall fp r2,
    match r1 with
    | c :: r => if Ascii.eqb c "." then span_digits r else ([], r1)
    | [] => ([], r1)
    end = (fp, r2) ->
    exists pt, r1 = pt ++ fp ++ r2 /\ forallb number_char (pt ++ fp) = true) as Hfp.
  { intros fp r2. destruct r1 as [|c r0].
    - intros [= <- <-]. by exists [].
    - destruct (Ascii.eqb c ".") eqn:Ec.
      + intros H. apply span_digits_app in H as [-> H].
        exists [c]. simpl. rewrite sign_number_char by auto.
        by rewrite digits_number_chars.
      + intros [= <- <-]. by exists []. }
  destruct (match r1 with [] => _ | _ => _ end) as [fp r2].
  destruct (Hfp _ _ eq_refl) as (pt & -> & Hpt). clear Hfp.
  assert (forallb number_char (ip ++ pt ++ fp) = true) as Hhead.
  { rewrite forallb_app, Hip, Hpt. reflexivity. }
  destruct (ip ++ fp) as [|d0 ds]; [discriminate|].
  destruct r2 as [|c r0].
  - intros [= <- <-]. exists (ip ++ pt ++ fp).
    rewrite ?app_nil_r, <- ?app_assoc. auto.
  - destruct (Ascii.eqb (lower_ascii c) "e") eqn:Ee.
    + destruct (take_sign r0) as [eneg r3] eqn:E3.
      destruct (span_digits r3) as [ed r4] eqn:E4.
      apply take_sign_app in E3 as (sg & -> & Hsg).
      apply span_digits_app in E4 as [-> Hed]. apply digits_number_chars in Hed.
      destruct ed as [|e0 ed].
      * intros [= <- <-]. exists (ip ++ pt ++ fp).
        rewrite <- ?app_assoc. auto.
      * intros [= <- <-]. exists (ip ++ pt ++ fp ++ c :: sg ++ e0 :: ed).
        split.
        -- rewrite <- !app_assoc. simpl. rewrite <- !app_assoc. reflexivity.
        -- rewrite !app_assoc, forallb_app, <- !app_assoc, Hhead. simpl.
           rewrite sign_number_char by auto. rewrite forallb_app, Hsg, Hed.
           reflexivity.
    + intros [= <- <-]. exists (ip ++ pt ++ fp).
      rewrite <- ?app_assoc. auto.
Qed.

Lemma parse_inf_nan_app neg s x r :
  parse_inf_nan neg s = Some (x, r) ->
  exists pre, s = pre ++ r /\ forallb number_char pre = true.
Proof.
  unfold parse_inf_nan.
  destruct (strip_keyword (list_ascii_of_string "inf") s) as [r1|] eqn:E1.
  - apply strip_keyword_app in E1 as (p1 & -> & H1); [|reflexivity].
    destruct (strip_keyword (list_ascii_of_string "inity") r1) as [r2|] eqn:E2.
    + apply strip_keyword_app in E2 as (p2 & -> & H2); [|reflexivity].
      intros [= <- <-]. exists (p1 ++ p2).
      rewrite forallb_app, H1, H2, <- app_assoc. auto.
    + intros [= <- <-]. eauto.
  - destruct (strip_keyword (list_ascii_of_string "nan") s) as [r1|] eqn:E2;
      [|discriminate].
    apply strip_keyword_app in E2 as (p1 & -> & H1); [|reflexivity].
    intros [= <- <-]. eauto.
Qed.

Lemma py_int_Raise s e : py_int s = Raise e -> e = ValueError.
Proof.
  unfold py_int. destruct (take_sign _) as [neg [|c s2]]; [congruence|].
  destruct (is_digit c); [|congruence].
  destruct (scan_int _ _ _) as [[n rest]|]; [|congruence].
  destruct (max_str_digits <? _); [congruence|].
  destruct (at_end rest); congruence.
Qed.

Lemma py_float_Raise s e : py_float s = Raise e -> e = ValueError.
Proof.
  unfold py_float. destruct (drop_underscores _ _) as [d|]; [|congruence].
  destruct (take_sign _) as [neg s1].
  destruct (parse_number neg s1) as [[x rest]|];
    [|destruct (parse_inf_nan neg s1) as [[x rest]|]; [|congruence]];
    destruct (at_end rest); congruence.
Qed.

Lemma ends_text_no_number_char c :
  ends_text c = true -> number_char (ascii_char c) = false.
Proof. by_cases_on_ascii c. Qed.

Lemma number_char_ascii_char c : number_char (ascii_char c) = number_char c.
Proof. by_cases_on_ascii c. Qed.

(** The characters of a text are number characters when those of its
    ASCII form are. *)
Lemma ascii_text_chars l :
  forallb number_char (ascii_text l) = true -> forallb number_char l = true.
Proof.
  induction l as [|c l IH]; cbn [ascii_text forallb]; [auto|].
  destruct (ends_text c) eqn:E; cbn [forallb].
  - rewrite (ends_text_no_number_char _ E). discriminate.
  - rewrite number_char_ascii_char. intros H.
    apply andb_prop in H as [-> H]. auto.
Qed.

(** A text that [int] accepts is made of number characters. *)
Lemma py_int_chars s n :
  py_int s = Return n -> forallb number_char (list_ascii_of_string s) = true.
Proof.
  unfold py_int. destruct (take_sign _) as [neg s2] eqn:Es.
  intros H. apply ascii_text_chars.
  apply (lstrip_chars _ _ space_number_char).
  apply take_sign_app in Es as (sg & -> & Hsg).
  rewrite forallb_app, Hsg. simpl.
  destruct s2 as [|c s2]; [discriminate|].
  destruct (is_digit c); [|discriminate].
  destruct (scan_int _ _ _) as [[n' rest]|] eqn:E; [|discriminate].
  destruct (max_str_digits <? _); [discriminate|].
  destruct (at_end rest) eqn:Ee; [|discriminate].
  apply scan_int_app in E as (pre & -> & Hpre).
  rewrite forallb_app, Hpre. simpl.
  apply at_end_spaces in Ee. clear -Ee.
  induction rest as [|c rest IH]; simpl in *; [auto|].
  apply andb_prop in Ee as [Hc Hr]. by rewrite space_number_char, IH.
Qed.

(** A text that [float] accepts is made of number characters. *)
Lemma py_float_chars s x :
  py_float s = Return x -> forallb number_char (list_ascii_of_string s) = true.
Proof.
  unfold py_float.
  destruct (drop_underscores _ _) as [d|] eqn:Ed; [|discriminate].
  intros H. apply ascii_text_chars.
  apply (drop_underscores_chars _ _ _ _ Ed).
  { intros c Hc. apply sign_number_char. auto. }
  clear Ed. apply (lstrip_chars _ _ space_number_char).
  destruct (take_sign _) as [neg s1] eqn:Es.
  apply take_sign_app in Es as (sg & -> & Hsg).
  rewrite forallb_app, Hsg. simpl.
  assert (exists rest pre, s1 = pre ++ rest /\
            forallb number_char pre = true /\ at_end rest = true)
    as (rest & pre & -> & Hpre & Hend).
  { destruct (parse_number neg s1) as [[y rest]|] eqn:E1.
    - destruct (at_end rest) eqn:Ee; [|discriminate].
      apply parse_number_app in E1 as (pre & -> & Hpre). eauto 6.
    - destruct (parse_inf_nan neg s1) as [[y rest]|] eqn:E2; [|discriminate].
      destruct (at_end rest) eqn:Ee; [|discriminate].
      apply parse_inf_nan_app in E2 as (pre & -> & Hpre). eauto 6. }
  rewrite forallb_app, Hpre. simpl.
  apply at_end_spaces in Hend. clear -Hend.
  induction rest as [|c rest IH]; simpl in *; [auto|].
  apply andb_prop in Hend as [Hc Hr]. by rewrite space_number_char, IH.
Qed.

(** ** Every text that [int] accepts, [float] accepts *)

Lemma drop_underscores_spaces prev rest :
  Ascii.eqb prev "_" = false -> forallb is_space rest = true ->
  drop_underscores prev rest = Some rest.
Proof.
  revert prev. induction rest as [|c rest IH]; simpl; intros prev Hp.
  - by rewrite Hp.
  - intros H. apply andb_prop in H as [Hc H].
    rewrite (space_not_underscore _ Hc), Hp. simpl.
    rewrite (IH c (space_not_underscore _ Hc) H). reflexivity.
Qed.

(** The digits that [int] scans, with the underscores between them,
    pass the underscore check of [float] and leave digits. *)
Lemma scan_int_drop_underscores s prev prev_us acc n rest :
  scan_int prev_us acc s = Some (n, rest) ->
  (if prev_us then Ascii.eqb prev "_" = true else is_digit prev = true) ->
  forallb is_space rest = true ->
  exists ds, drop_underscores prev s = Some (ds ++ rest) /\
             forallb is_digit ds = true.
Proof.
  revert prev prev_us acc. induction s as [|c s IH]; simpl; intros prev prev_us acc.
  - destruct prev_us; [discriminate|]. intros [= <- <-] Hp _.
    exists []. by rewrite (digit_not_underscore _ Hp).
  - destruct (is_digit c) eqn:Ed.
    + intros H Hp Hr. rewrite (digit_not_underscore _ Ed).
      rewrite andb_false_r.
      destruct (IH c false _ H Ed Hr) as (ds & -> & Hds).
      exists (c :: ds). simpl. by rewrite Ed.
    + destruct (Ascii.eqb c "_") eqn:Eu.
      * destruct prev_us; [discriminate|]. intros H Hp Hr. rewrite Hp.
        destruct (IH c true _ H Eu Hr) as (ds & -> & Hds). eauto.
      * destruct prev_us; [discriminate|]. intros [= <- <-] Hp Hr.
        rewrite (digit_not_underscore _ Hp). simpl.
        simpl in Hr. apply andb_prop in Hr as [Hc Hr].
        rewrite (drop_underscores_spaces c s Eu Hr). by exists [].
Qed.

Lemma span_digits_spaces ds rest :
  forallb is_digit ds = true -> forallb is_space rest = true ->
  span_digits (ds ++ rest) = (ds, rest).
Proof.
  intros Hds Hr. induction ds as [|c ds IH]; simpl in *.
  - destruct rest as [|c rest]; simpl in *; [reflexivity|].
    apply andb_prop in Hr as [Hc _]. by rewrite (space_not_digit _ Hc).
  - apply andb_prop in Hds as [-> Hds]. by rewrite (IH Hds).
Qed.

Lemma parse_number_digits neg c ds rest :
  is_digit c = true -> forallb is_digit ds = true ->
  forallb is_space rest = true ->
  exists x, parse_number neg (c :: ds ++ rest) = Some (x, rest).
Proof.
  intros Hc Hds Hr. unfold parse_number.
  change (c :: ds ++ rest) with ((c :: ds) ++ rest).
  rewrite (span_digits_spaces (c :: ds) rest);
    [| simpl; by rewrite Hc | assumption].
  destruct rest as [|w rest]; simpl; [eauto|].
  simpl in Hr. apply andb_prop in Hr as [Hw Hr].
  rewrite (space_not_point _ Hw). simpl.
  rewrite (space_not_e _ Hw). eauto.
Qed.

Lemma sign_not_underscore a :
  Ascii.eqb a "+" = true \/ Ascii.eqb a "-" = true ->
  Ascii.eqb a "_" = false /\ is_space a = false.
Proof.
  destruct a as [[] [] [] [] [] [] [] []]; vm_compute; intuition congruence.
Qed.

Lemma int_text_passes_underscore_check l prev neg c t n rest :
  Ascii.eqb prev "_" = false ->
  take_sign (lstrip l) = (neg, c :: t) ->
  is_digit c = true ->
  scan_int false 0 (c :: t) = Some (n, rest) ->
  forallb is_space rest = true ->
  exists d ds,
    drop_underscores prev l = Some d /\
    take_sign (lstrip d) = (neg, c :: ds ++ rest) /\
    forallb is_digit ds = true.
Proof.
  intros Hp Hs Hc Hscan Hrest. simpl in Hscan. rewrite Hc in Hscan.
  revert prev Hp Hs. induction l as [|a l IH]; intros prev Hp; [discriminate|].
  cbn [lstrip]. destruct (is_space a) eqn:Ea.
  - intros Hs. destruct (IH a (space_not_underscore _ Ea) Hs)
      as (d & ds & Hd & Ht & Hds).
    exists (a :: d), ds. cbn [drop_underscores lstrip].
    rewrite (space_not_underscore _ Ea), Hp, Hd, Ea. auto.
  - cbn [take_sign drop_underscores].
    assert (forall b, drop_underscores b (c :: t) =
                      if Ascii.eqb b "_" && negb (is_digit c) then None
                      else cons c <$> drop_underscores c t) as Hstep.
    { intros b. cbn [drop_underscores]. by rewrite (digit_not_underscore _ Hc). }
    destruct (scan_int_drop_underscores t c false _ _ _ Hscan Hc Hrest)
      as (ds & Hd & Hds).
    destruct (Ascii.eqb a "+") eqn:E1; [|destruct (Ascii.eqb a "-") eqn:E2].
    + intros [= <- ->].
      destruct (sign_not_underscore a (or_introl E1)) as [Hu _].
      rewrite Hu, Hp, Hstep, Hu, Hd. simpl.
      exists (a :: c :: ds ++ rest), ds. cbn [lstrip]. rewrite Ea.
      cbn [take_sign]. rewrite E1. auto.
    + intros [= <- ->].
      destruct (sign_not_underscore a (or_intror E2)) as [Hu _].
      rewrite Hu, Hp, Hstep, Hu, Hd. simpl.
      exists (a :: c :: ds ++ rest), ds. cbn [lstrip]. rewrite Ea.
      cbn [take_sign]. rewrite E1, E2. auto.
    + intros [= <- -> ->].
      rewrite (digit_not_underscore _ Hc), Hp, Hd. simpl.
      exists (c :: ds ++ rest), ds. cbn [lstrip]. rewrite Ea.
      cbn [take_sign]. rewrite E1, E2. auto.
Qed.

(** Every text that [int] accepts, [float] accepts. *)
Lemma py_int_is_float s n : py_int s = Return n -> exists x, py_float s = Return x.
Proof.
  unfold py_int, py_float.
  destruct (take_sign (lstrip (ascii_text (list_ascii_of_string s))))
    as [neg [|c t]] eqn:Es; [discriminate|].
  destruct (is_digit c) eqn:Hc; [|discriminate].
  destruct (scan_int false 0 (c :: t)) as [[n' rest]|] eqn:Hscan; [|discriminate].
  destruct (max_str_digits <? _); [discriminate|].
  destruct (at_end rest) eqn:Hend; [|discriminate]. intros _.
  pose proof (proj1 (at_end_spaces rest) Hend) as Hrest.
  destruct (int_text_passes_underscore_check _ "000" _ _ _ _ _
              eq_refl Es Hc Hscan Hrest) as (d & ds & -> & -> & Hds).
  destruct (parse_number_digits neg c ds rest Hc Hds Hrest) as (x & ->).
  rewrite Hend. eauto.
Qed.

(** ** [int] and [float] on sample texts *)

Example py_int_samples :
  py_int " +1_0 " = Return 10 /\ py_int "-007" = Return (-7) /\
  py_int "1__0" = Raise ValueError /\ py_int "1_" = Raise ValueError /\
  py_int "1.0" = Raise ValueError /\ py_int "" = Raise ValueError.
Proof. vm_compute. auto 6. Qed.

Example py_float_samples :
  py_float "0.1" = Return (S754_finite false 7205759403792794 (-56)) /\
  py_float " -1_0.5e-1 " = Return (S754_finite true 4728779608739021 (-52)) /\
  py_float "9007199254740993" = Return (S754_finite false 4503599627370496 1) /\
  py_float "5e-324" = Return (S754_finite false 1 (-1074)) /\
  py_float "1e400" = Return (S754_infinity false) /\
  py_float "-Infinity" = Return (S754_infinity true) /\
  py_float "NaN" = Return S754_nan /\
  py_float "1e" = Raise ValueError /\ py_float "." = Raise ValueError /\
  py_float "1_.5" = Raise ValueError /\ py_float "DQ" = Raise ValueError /\
  py_float "" = Raise ValueError.
Proof. vm_compute. auto 12. Qed.

(** White space beyond ASCII is skipped like a blank, any other
    character beyond ASCII is refused, and [int] refuses more than
    4300 digits. *)
Example py_number_beyond_ascii :
  py_float (String.append "58.21" nbsp) =
    Return (S754_finite false 8192329197163643 (-47)) /\
  py_int (String.append nbsp (String.append "2023" nbsp)) = Return 2023 /\
  py_float (String.append "58.21" (String "233"%char EmptyString)) =
    Raise ValueError /\
  py_int (String "178"%char EmptyString) = Raise ValueError /\
  py_int long_digits = Raise ValueError /\
  is_Return (py_float long_digits) = true /\
  strip (String.append nbsp (String.append " 12/01 " nbsp)) = "12/01" /\
  strip nbsp = EmptyString.
Proof. vm_compute. auto 10. Qed.

(** ** The time parser *)

Lemma time_to_float_number s x :
  py_float s = Return x -> time_to_float (Some s) = Return (Some x).
Proof. intros H. unfold time_to_float, float_arg. by rewrite H. Qed.

(** The handler of [float]'s [ValueError], with the two uses of [split]
    read through [before_colon] and [after_colon]. *)
Lemma time_to_float_handler s :
  is_Return (py_float s) = false ->
  time_to_float (Some s) =
  if contains "dq" (lower s) then Return None
  else
    minutes ← py_int (before_colon s);
    p1 ← (match after_colon s with
          | Some r => Return (before_colon r)
          | None => Raise IndexError
          end);
    seconds ← py_float p1;
    total ← float_of_int (minutes * 60);
    Return (Some (float_add total seconds)).
Proof.
  intros H. unfold time_to_float, float_arg.
  destruct (py_float s) as [x|e] eqn:E; [discriminate|].
  apply py_float_Raise in E as ->.
  destruct (contains "dq" (lower s)); [reflexivity|].
  unfold index. rewrite split_head, split_second. simpl.
  destruct (py_int (before_colon s)); [|reflexivity]. simpl.
  destruct (after_colon s); reflexivity.
Qed.

Lemma time_to_float_dq s :
  is_Return (py_float s) = false -> contains "dq" (lower s) = true ->
  time_to_float (Some s) = Return None.
Proof. intros H Hdq. by rewrite (time_to_float_handler s H), Hdq. Qed.

Lemma py_float_colon M S : is_Return (py_float (String.append M (String ":" S))) = false.
Proof.
  destruct (py_float _) as [x|e] eqn:E; [|reflexivity].
  apply py_float_chars in E. rewrite list_ascii_of_string_app, forallb_app in E.
  apply andb_prop in E as [_ E]. simpl in E. discriminate.
Qed.

Lemma time_to_float_min_sec M S m x :
  py_int M = Return m -> py_float S = Return x ->
  time_to_float (Some (String.append M (String ":" S))) =
  (total ← float_of_int (m * 60); Return (Some (float_add total x))).
Proof.
  intros HM HS. rewrite (time_to_float_handler _ (py_float_colon M S)).
  pose proof (py_int_chars _ _ HM) as HcM.
  pose proof (py_float_chars _ _ HS) as HcS.
  assert (contains "dq" (lower (String.append M (String ":" S))) = false) as ->.
  { apply no_d_no_dq.
    rewrite list_ascii_of_string_app, existsb_app. simpl.
    by rewrite (number_chars_no_d _ HcM), (number_chars_no_d _ HcS). }
  destruct (number_chars_no_colon _ HcM) as [HbM HaM].
  destruct (number_chars_no_colon _ HcS) as [HbS _].
  rewrite (before_colon_app _ _ HbM), (after_colon_app _ _ HaM), HM. simpl.
  rewrite HbS, HS. reflexivity.
Qed.

(** C5 as stated fails: with a minutes part beyond the binary64 range
    the sum [int * 60 + float] raises [OverflowError]. *)
Lemma time_to_float_overflow :
  py_int huge_minutes = Return (10 ^ 309) /\
  py_float "00" = Return (S754_zero false) /\
  time_to_float (Some (String.append huge_minutes ":00")) = Raise OverflowError.
Proof. vm_compute. auto. Qed.

(** C5, as the code has it.  A text that [float] accepts is returned as
    that float; a text M:S with M an integer text, S a float text and
    M * 60 within the binary64 range is returned as the float sum of
    M * 60 and S. *)
Theorem time_to_float_value (s M S : string) (m : Z) (x y t : float) :
  (py_float s = Return x -> time_to_float (Some s) = Return (Some x)) /\
  (py_int M = Return m -> py_float S = Return y ->
   float_of_int (m * 60) = Return t ->
   time_to_float (Some (String.append M (String ":" S))) =
   Return (Some (float_add t y))).
Proof.
  split.
  - apply time_to_float_number.
  - intros HM HS Ht. rewrite (time_to_float_min_sec _ _ _ _ HM HS), Ht.
    reflexivity.
Qed.

Lemma time_to_float_value_witness :
  time_to_float (Some "58.21") =
    Return (Some (S754_finite false 8192329197163643 (-47))) /\
  time_to_float (Some "1:03.55") =
    Return (Some (S754_finite false 8943867384981094 (-47))).
Proof.
  split.
  - apply (proj1 (time_to_float_value "58.21" "1" "03.55" 1
                    (S754_finite false 8192329197163643 (-47))
                    (S754_finite false 7993889338582630 (-51))
                    (S754_finite false 8444249301319680 (-47)))).
    vm_compute. reflexivity.
  - etransitivity.
    + apply (proj2 (time_to_float_value "58.21" "1" "03.55" 1
                      (S754_finite false 8192329197163643 (-47))
                      (S754_finite false 7993889338582630 (-51))
                      (S754_finite false 8444249301319680 (-47))));
        vm_compute; reflexivity.
    + vm_compute. reflexivity.
Defined.

(** The two values of the witness are the floats that the texts "58.21"
    and "63.55" denote. *)
Lemma example_times_denote :
  py_float "58.21" = Return (S754_finite false 8192329197163643 (-47)) /\
  py_float "63.55" = Return (S754_finite false 8943867384981094 (-47)).
Proof. vm_compute. auto. Qed.

(** The examples of C5 with a no-break space at the end, and a minutes
    text of 4301 digits, which [int] refuses. *)
Example time_to_float_beyond_ascii :
  time_to_float (Some (String.append "58.21" nbsp)) =
    Return (Some (S754_finite false 8192329197163643 (-47))) /\
  time_to_float (Some (String.append "1:03.55" nbsp)) =
    Return (Some (S754_finite false 8943867384981094 (-47))) /\
  time_to_float (Some (String.append long_digits ":00")) = Raise ValueError /\
  time_to_float (Some (String.append huge_minutes (String.append ":00" nbsp))) =
    Raise OverflowError.
Proof. vm_compute. auto. Qed.

(** C6, where the code departs from it.  [float(None)] raises
    [TypeError], which the handler does not catch. *)
Theorem time_to_float_None : time_to_float None = Raise TypeError.
Proof. reflexivity. Qed.

(** C7 as stated fails: a text with two colons that is no
    minutes:seconds text is returned as a number. *)
Lemma time_to_float_three_fields :
  is_Return (py_float "1:02:03") = false /\
  contains "dq" (lower "1:02:03") = false /\
  min_sec_form "1:02:03" = false /\
  time_to_float (Some "1:02:03") =
    Return (Some (S754_finite false 8725724278030336 (-47))).
Proof. vm_compute. auto. Qed.

(** C7, as the code has it.  A text that [float] rejects, without "dq"
    in any case, whose part left of the first colon is no integer text
    or whose part between the first colon and the next one (or the end)
    is no float text, raises [ValueError]. *)
Theorem time_to_float_malformed (s : string) :
  is_Return (py_float s) = false ->
  contains "dq" (lower s) = false ->
  min_sec_head_form s = false ->
  time_to_float (Some s) = Raise ValueError.
Proof.
  intros Hf Hdq Hform. rewrite (time_to_float_handler s Hf), Hdq.
  unfold min_sec_head_form in Hform.
  destruct (py_int (before_colon s)) as [m|e] eqn:Ei.
  - destruct (after_colon s) as [r|] eqn:Ea.
    + simpl in *. destruct (py_float (before_colon r)) as [x|e] eqn:Er;
        [discriminate|].
      apply py_float_Raise in Er as ->. reflexivity.
    + exfalso. assert (before_colon s = s) as Hs.
      { clear -Ea. induction s as [|c s IH]; simpl in *; [reflexivity|].
        destruct (Ascii.eqb c ":"); [discriminate | by rewrite IH]. }
      rewrite Hs in Ei. apply py_int_is_float in Ei as [x Ex].
      rewrite Ex in Hf. discriminate.
  - apply py_int_Raise in Ei as ->. reflexivity.
Qed.

Lemma time_to_float_malformed_witness :
  time_to_float (Some "1:xx") = Raise ValueError.
Proof. apply (time_to_float_malformed "1:xx"); reflexivity. Defined.

(** ** The swimmer profile *)

Lemma graduation_table code : graduation !! code = class_year_table code.
Proof.
  unfold graduation, class_year_table.
  repeat match goal with
    | |- context [ (code =? ?k) ] =>
        destruct (Z.eqb_spec code k) as [->|?]; [reflexivity|];
        first [ rewrite lookup_insert_ne by congruence
              | rewrite lookup_singleton_ne by congruence ]
    end.
  reflexivity.
Qed.

Lemma graduation_lookup_Raise code e :
  graduation_lookup code = Raise e -> e = KeyError /\ class_year_table code = None.
Proof.
  unfold graduation_lookup. rewrite graduation_table.
  destruct (class_year_table code); [discriminate|]. intros [= <-]. auto.
Qed.

(** The exceptions of the time parser on a text. *)
Lemma time_to_float_Raise s e :
  time_to_float (Some s) = Raise e -> e = ValueError \/ e = OverflowError.
Proof.
  destruct (py_float s) as [x|e'] eqn:Ef.
  { rewrite (time_to_float_number _ _ Ef). discriminate. }
  rewrite time_to_float_handler by (by rewrite Ef).
  destruct (contains "dq" (lower s)); [discriminate|].
  destruct (py_int (before_colon s)) as [m|e1] eqn:Ei; simpl.
  - destruct (after_colon s) as [r|] eqn:Ea; simpl.
    + destruct (py_float (before_colon r)) as [y|e2] eqn:Er; simpl.
      * unfold float_of_int.
        destruct (binary_normalize _ _ _ _ _); simpl; intros [= <-]; auto.
      * apply py_float_Raise in Er as ->. intros [= <-]. auto.
    + exfalso. assert (before_colon s = s) as Hs.
      { clear -Ea. induction s as [|c s IH]; simpl in *; [reflexivity|].
        destruct (Ascii.eqb c ":"); [discriminate | by rewrite IH]. }
      rewrite Hs in Ei. apply py_int_is_float in Ei as [x Ex]. congruence.
  - apply py_int_Raise in Ei as ->. intros [= <-]. auto.
Qed.

Section ProfileProperties.

Context {date : Type} (strptime : string -> option date).

Lemma performance_Raise current_event text e :
  performance date strptime current_event text = Raise e ->
  e = ValueError \/ e = OverflowError.
Proof.
  unfold performance. destruct (strptime _); simpl.
  - destruct (time_to_float _) eqn:E; simpl; [discriminate|].
    intros [= <-]. eapply time_to_float_Raise; eauto.
  - intros [= <-]. auto.
Qed.

Lemma scan_times_exn rows current_event acc ts e :
  scan_times date strptime current_event acc rows = (ts, Some e) ->
  e = ValueError \/ e = OverflowError.
Proof.
  revert current_event acc. induction rows as [|i rows IH]; simpl;
    intros current_event acc.
  - discriminate.
  - destruct (contains "<b>" (row_str i)); [apply IH|].
    destruct (performance _ _ _ _) eqn:E; [apply IH|].
    intros [= <- <-]. eapply performance_Raise; eauto.
Qed.

(** The exceptions of the [try] body: an [IndexError] comes from an
    absent third table or from a third table without rows, and then
    nothing was appended. *)
Lemma performance_block_exn (soup : Document) ts e :
  performance_block date strptime soup = (ts, Some e) ->
  (e = IndexError /\ ts = [] /\
   (soup !! 2%nat = None \/
    exists t, soup !! 2%nat = Some t /\ table_tr t = [])) \/
  e = ValueError \/ e = OverflowError.
Proof.
  unfold performance_block, index.
  destruct (soup !! 2%nat) as [t|] eqn:E2.
  - destruct (table_tr t) as [|first rows] eqn:Et; simpl.
    + intros [= <- <-]. left. eauto 6.
    + intros H. right. exact (scan_times_exn (first :: rows) _ _ _ _ H).
  - simpl. intros [= <- <-]. left. auto.
Qed.

Lemma fetch_swimmer_info_Raise (soup : Document) e :
  swimmer_info soup = Raise e -> fetch_swimmer date strptime soup = Raise e.
Proof. unfold fetch_swimmer. by intros ->. Qed.

Lemma fetch_swimmer_after_info (soup : Document) name year :
  swimmer_info soup = Return (name, year) ->
  fetch_swimmer date strptime soup =
  match performance_block date strptime soup with
  | (ts, None) => Return (mkSwimmer name year ts)
  | (ts, Some IndexError) => Return (mkSwimmer name year ts)
  | (_, Some e) => Raise e
  end.
Proof. unfold fetch_swimmer. by intros ->. Qed.

End ProfileProperties.

Lemma swimmer_info_steps (soup : Document) info last first ytext code :
  soup !! 0%nat = Some info ->
  bold_text info 1 = Return last ->
  bold_text info 2 = Return first ->
  bold_text info 9 = Return ytext ->
  py_int ytext = Return code ->
  swimmer_info soup =
  (year ← graduation_lookup code;
   Return (String.append first (String.append " " last), year)).
Proof.
  intros H0 H1 H2 H9 Hi. unfold swimmer_info, index.
  rewrite H0. simpl. rewrite H1. simpl. rewrite H2. simpl.
  rewrite H9. simpl. rewrite Hi. reflexivity.
Qed.

(** C8.  The graduation year is looked up in the table 2020 "SR",
    2021 "JR", 2022 "SO", 2023 "FR", 2024 "'8", 2025 "'7": a year of the
    table gives the class year of the swimmer, and with any other year
    [fetch_swimmer] raises [KeyError] and returns no swimmer. *)
Theorem class_year_lookup {date : Type} (strptime : string -> option date)
    (soup : Document) (info : Table) (last first ytext : string) (code : Z) :
  soup !! 0%nat = Some info ->
  bold_text info 1 = Return last ->
  bold_text info 2 = Return first ->
  bold_text info 9 = Return ytext ->
  py_int ytext = Return code ->
  graduation !! code = class_year_table code /\
  match class_year_table code with
  | Some year =>
      swimmer_info soup =
        Return (String.append first (String.append " " last), year) /\
      fetch_swimmer date strptime soup <> Raise KeyError /\
      (forall sw, fetch_swimmer date strptime soup = Return sw ->
                  swimmer_year sw = year)
  | None => fetch_swimmer date strptime soup = Raise KeyError
  end.
Proof.
  intros H0 H1 H2 H9 Hi. split; [apply graduation_table|].
  pose proof (swimmer_info_steps soup _ _ _ _ _ H0 H1 H2 H9 Hi) as Hinfo.
  unfold graduation_lookup in Hinfo. rewrite graduation_table in Hinfo.
  destruct (class_year_table code) as [year|]; simpl in Hinfo.
  - split; [assumption|].
    rewrite (fetch_swimmer_after_info strptime _ _ _ Hinfo).
    destruct (performance_block date strptime soup) as [ts [e|]] eqn:Eb.
    + apply performance_block_exn in Eb as [(-> & _) | [-> | ->]];
        (split; [discriminate|]); intros sw H; (discriminate H || by injection H as <-).
    + split; [discriminate|]. by intros sw [= <-].
  - by apply fetch_swimmer_info_Raise.
Qed.

Lemma class_year_lookup_witness :
  swimmer_info [info_table "Doe" "John" "2023"] = Return ("John Doe", "FR") /\
  fetch_swimmer unit (fun _ => None) [info_table "Doe" "John" "1999"] =
    Raise KeyError.
Proof.
  split.
  - exact (proj1 (proj2 (class_year_lookup (fun _ : string => @None unit)
                           [info_table "Doe" "John" "2023"]
                           (info_table "Doe" "John" "2023")
                           "Doe" "John" "2023" 2023
                           eq_refl eq_refl eq_refl eq_refl eq_refl))).
  - exact (proj2 (class_year_lookup (fun _ : string => @None unit)
                    [info_table "Doe" "John" "1999"]
                    (info_table "Doe" "John" "1999")
                    "Doe" "John" "1999" 1999
                    eq_refl eq_refl eq_refl eq_refl eq_refl)).
Defined.




(** * Further properties *)

(** ** The meet table *)

(** The three things a row that the parser accepts can do: start an
    event, add a pair of entries to the last event, or leave the events
    as they are. *)
Lemma parse_row_cases st events row st' events' :
  parse_row (st, events) row = Return (st', events') ->
  (starts_event st row = true /\ is_data_row st row = false /\
   exists c cells, row = c :: cells /\ events' = events ++ [mkEvent c [] []]) \/
  (starts_event st row = false /\ is_data_row st row = false /\
   events' = events) \/
  (starts_event st row = false /\ is_data_row st row = true /\
   exists init e h a,
     events = init ++ [e] /\ events' = init ++ [add_away a (add_home h e)]).
Proof.
  intros H. unfold starts_event, is_data_row.
  destruct (has_marker row) eqn:Hm.
  { destruct row as [|c cells]; [discriminate|]. simpl in Hm.
    rewrite (parse_row_marker _ _ _ _ Hm) in H. injection H as <- <-.
    right. left. auto. }
  destruct (length row =? 1)%nat eqn:Hl.
  { unfold parse_row in H. apply bind_Return in H as (c0 & H0 & H).
    destruct row as [|c cells]; [discriminate|]. simpl in Hm.
    apply index_Return in H0. injection H0 as ->.
    rewrite Hm, Hl in H. injection H as <- <-. left. simpl. eauto 6. }
  destruct st.
  - unfold parse_row in H. apply bind_Return in H as (c0 & H0 & H).
    destruct row as [|c cells]; [discriminate|]. simpl in Hm.
    apply index_Return in H0. injection H0 as ->.
    rewrite Hm, Hl in H. injection H as <- <-. left. simpl. eauto 6.
  - destruct (is_sentinel row) eqn:Hs.
    + unfold parse_row in H. apply bind_Return in H as (c0 & H0 & H).
      destruct row as [|c cells]; [discriminate|]. simpl in Hm.
      apply index_Return in H0. injection H0 as ->.
      rewrite Hm, Hl in H. unfold is_sentinel in Hs. simpl in Hs.
      destruct (cells !! 6%nat) as [c7|] eqn:H7; [|discriminate].
      apply andb_prop in Hs as [Hs0 Hs7]. rewrite Hs0 in H.
      unfold index in H. simpl in H. rewrite H7 in H. simpl in H.
      rewrite Hs7 in H. injection H as <- <-. right. left. auto.
    + destruct (parse_row_data _ _ _ _ H Hm Hl Hs)
        as (init & e & h & a & -> & -> & ->).
      right. right. simpl. eauto 8.
  - unfold parse_row in H. apply bind_Return in H as (c0 & H0 & H).
    destruct row as [|c cells]; [discriminate|]. simpl in Hm.
    apply index_Return in H0. injection H0 as ->.
    rewrite Hm, Hl in H. injection H as <- <-. right. left. auto.
Qed.

Lemma home_total_app l1 l2 :
  home_total (l1 ++ l2) = (home_total l1 + home_total l2)%nat.
Proof.
  unfold home_total. induction l1 as [|e l1 IH]; simpl; [reflexivity|].
  rewrite IH. lia.
Qed.

Lemma parse_rows_names_entries rows st events st' events' :
  parse_rows (st, events) rows = Return (st', events') ->
  map eventName events' = map eventName events ++ started_names st rows /\
  home_total events' = (home_total events + data_rows st rows)%nat.
Proof.
  revert st events. induction rows as [|row rest IH]; intros st events; simpl.
  - intros [= <- <-]. rewrite app_nil_r. auto with arith.
  - intros H. apply bind_Return in H as ([st1 events1] & H1 & H).
    pose proof (parse_row_Return _ _ _ _ _ H1) as (-> & _ & _).
    apply IH in H as [Hn Ht]. rewrite Hn, Ht. clear Hn Ht IH.
    apply parse_row_cases in H1
      as [(-> & -> & c & cells & -> & ->)
         | [(-> & -> & ->) | (-> & -> & init & e & h & a & -> & ->)]].
    + rewrite map_app, home_total_app, <- app_assoc. simpl. split; [auto | lia].
    + simpl. auto.
    + rewrite !map_app, !home_total_app. simpl. rewrite length_app. simpl.
      split; [auto | lia].
Qed.

(** X1.  Whatever the rows, the only exception of the row parser is an
    [IndexError]. *)
Theorem fetch_meet_results_only_IndexError
    (rows : list (list string)) (e : exn) :
  fetch_meet_results rows = Raise e -> e = IndexError.
Proof.
  unfold fetch_meet_results. intros H.
  apply bind_Raise in H as [H | (st & _ & H)]; [|discriminate].
  by apply parse_rows_Raise in H.
Qed.

Lemma fetch_meet_results_only_IndexError_witness :
  fetch_meet_results [["100 Free"]; ["58.21"; "A"]] = Raise IndexError /\
  IndexError = IndexError.
Proof.
  split; [reflexivity|].
  apply (fetch_meet_results_only_IndexError [["100 Free"]; ["58.21"; "A"]]).
  reflexivity.
Defined.

Lemma parse_row_ok st events row :
  row_ok row = true -> (st = times -> events <> []) ->
  exists st' events',
    parse_row (st, events) row = Return (st', events') /\
    (st' = times -> events' <> []).
Proof.
  intros Hok Hinv. unfold row_ok in Hok.
  assert (forall (l : list EventResult) x, l ++ [x] <> []) as Hsnoc.
  { intros l x. destruct l; discriminate. }
  destruct row as [|c0 [|c1 [|c2 [|c3 [|c4 [|c5 [|c6 [|c7 rest]]]]]]]];
    try discriminate Hok; unfold parse_row; simpl;
    destruct (contains "Exhibition" c0); try (eexists _, _; split; [reflexivity|]; auto; discriminate).
  destruct st; try (eexists _, _; split; [reflexivity|]; auto; discriminate).
  destruct events as [|x l _] using rev_ind; [by destruct Hinv|].
  destruct (String.eqb c0 ""); simpl; [destruct (String.eqb c7 ""); simpl|];
    rewrite ?append_last_snoc; simpl; rewrite ?append_last_snoc; simpl;
    eexists _, _; (split; [reflexivity|]); auto; discriminate.
Qed.

(** X2.  A stream whose rows have one cell or at least eight cells is
    parsed without exception. *)
Theorem fetch_meet_results_total_on_wide_rows (rows : list (list string)) :
  Forall (fun row => row_ok row = true) rows ->
  exists events, fetch_meet_results rows = Return events.
Proof.
  intros Hrows. unfold fetch_meet_results, initial.
  assert (forall st events, (st = times -> events <> []) ->
            exists st' events', parse_rows (st, events) rows = Return (st', events'))
    as Hrun.
  { induction Hrows as [|row rest Hok _ IH]; intros st events Hinv;
      cbn [parse_rows].
    - eauto.
    - destruct (parse_row_ok st events row Hok Hinv) as (st1 & ev1 & -> & Hinv1).
      apply IH. assumption. }
  destruct (Hrun event []) as (st' & events' & ->); [discriminate|].
  simpl. eauto.
Qed.

Lemma fetch_meet_results_total_on_wide_rows_witness :
  exists events,
    fetch_meet_results
      [["100 Free"]; ["A"; "58.21"; ""; ""; ""; "EX"; "B"; "59.02"]] =
    Return events.
Proof.
  apply fetch_meet_results_total_on_wide_rows.
  repeat constructor.
Defined.

(** X3.  The names of the events returned are, in order, the first
    cells of the rows that start an event. *)
Theorem event_names_in_order
    (rows : list (list string)) (events : list EventResult) :
  fetch_meet_results rows = Return events ->
  map eventName events = started_names event rows.
Proof.
  unfold fetch_meet_results. intros H.
  apply bind_Return in H as ([st events'] & H & [= <-]).
  by apply parse_rows_names_entries in H as [H _].
Qed.

Lemma event_names_in_order_witness :
  map eventName [mkEvent "200 Medley Relay" [] []; mkEvent "100 Free" [] []] =
  started_names event [["200 Medley Relay"; ""]; ["Exhibition"]; ["100 Free"]].
Proof.
  apply (event_names_in_order
           [["200 Medley Relay"; ""]; ["Exhibition"]; ["100 Free"]]).
  reflexivity.
Defined.

(** X4.  The home entries of the output, all events together, are as
    many as the data rows of the stream: the rows of a time block that
    are no marker, no header and no sentinel. *)
Theorem home_entries_count
    (rows : list (list string)) (events : list EventResult) :
  fetch_meet_results rows = Return events ->
  home_total events = data_rows event rows.
Proof.
  unfold fetch_meet_results. intros H.
  apply bind_Return in H as ([st events'] & H & [= <-]).
  by apply parse_rows_names_entries in H as [_ H].
Qed.

Lemma home_entries_count_witness :
  home_total
    [mkEvent "100 Free"
       [mkEntry "58.21" "A" false; mkEntry "59.90" "C" true]
       [mkEntry "59.02" "B" false; mkEntry "" "" false]] =
  data_rows event
    [["100 Free"];
     ["A"; "58.21"; ""; ""; ""; ""; "B"; "59.02"];
     ["C"; "59.90"; "EX"; ""; ""; ""; ""; ""];
     [""; ""; ""; ""; ""; ""; ""; ""]].
Proof.
  apply (home_entries_count
           [["100 Free"];
            ["A"; "58.21"; ""; ""; ""; ""; "B"; "59.02"];
            ["C"; "59.90"; "EX"; ""; ""; ""; ""; ""];
            [""; ""; ""; ""; ""; ""; ""; ""]]).
  reflexivity.
Defined.

(** X5.  When a stream parses, each of its prefixes parses, and the
    rows that follow neither remove nor rename the events the prefix
    started. *)
Theorem events_of_prefix_kept
    (rows1 rows2 : list (list string)) (events : list EventResult) :
  fetch_meet_results (rows1 ++ rows2) = Return events ->
  exists events1,
    fetch_meet_results rows1 = Return events1 /\
    map eventName events1 `prefix_of` map eventName events.
Proof.
  unfold fetch_meet_results. rewrite parse_rows_app. intros H.
  apply bind_Return in H as ([st events'] & H & [= <-]).
  apply bind_Return in H as ([st1 events1] & H1 & H2).
  exists events1. rewrite H1. split; [reflexivity|].
  apply parse_rows_names_entries in H2 as [-> _]. simpl.
  by eexists.
Qed.

Lemma events_of_prefix_kept_witness :
  exists events1,
    fetch_meet_results [["100 Free"]] = Return events1 /\
    map eventName events1 `prefix_of`
      map eventName
        [mkEvent "100 Free" [mkEntry "58.21" "A" false] [mkEntry "59.02" "B" false];
         mkEvent "50 Free" [] []].
Proof.
  apply (events_of_prefix_kept [["100 Free"]]
           [["A"; "58.21"; ""; ""; ""; ""; "B"; "59.02"]; ["50 Free"]]).
  reflexivity.
Defined.

Lemma parse_rows_exhib events block :
  Forall (fun row : list string => (2 <=? length row)%nat = true) block ->
  parse_rows (exhib, events) block = Return (exhib, events).
Proof.
  induction 1 as [|row rest Hrow _ IH]; cbn [parse_rows]; [reflexivity|].
  assert (parse_row (exhib, events) row = Return (exhib, events)) as ->;
    [|exact IH].
  destruct row as [|c [|c' cells]]; try discriminate Hrow.
  unfold parse_row. simpl. by destruct (contains "Exhibition" c).
Qed.

(** X6.  After a row with the marker, rows of two or more cells are
    discarded: they add nothing to the events and raise no exception,
    however few cells they have. *)
Theorem exhibition_block_discarded
    (pre block : list (list string)) (marker_row : list string) :
  has_marker marker_row = true ->
  Forall (fun row : list string => (2 <=? length row)%nat = true) block ->
  fetch_meet_results (pre ++ marker_row :: block) = fetch_meet_results pre.
Proof.
  intros Hm Hblock. unfold fetch_meet_results. rewrite parse_rows_app.
  destruct (parse_rows initial pre) as [[st events]|e]; [|reflexivity].
  destruct marker_row as [|c cells]; [discriminate|].
  cbn [mbind result_bind parse_rows].
  rewrite (parse_row_marker _ _ _ _ Hm). cbn [mbind result_bind].
  rewrite (parse_rows_exhib _ _ Hblock). reflexivity.
Qed.

Lemma exhibition_block_discarded_witness :
  fetch_meet_results
    [["100 Free"]; ["Exhibition Heats"; ""]; ["C"; "1:02.00"]; ["D"; "DQ"; "x"]] =
  fetch_meet_results [["100 Free"]].
Proof.
  apply (exhibition_block_discarded [["100 Free"]]
           [["C"; "1:02.00"]; ["D"; "DQ"; "x"]] ["Exhibition Heats"; ""]).
  - reflexivity.
  - repeat constructor.
Defined.

Lemma slice_inner_middle {A : Type} (first last : A) (mid : list A) :
  slice_inner (first :: mid ++ [last]) = mid.
Proof.
  unfold slice_inner. simpl. rewrite length_app. simpl.
  replace (length mid + 1 - 1)%nat with (length mid) by lia.
  rewrite drop_0. by rewrite take_app_length.
Qed.

(** X7.  Of the table of the page, the first and the last row are never
    parsed, whatever they hold; a table of at most two rows gives no
    event; and a page without the table is an [IndexError]. *)
Theorem fetch_meet_page_skips_ends
    (first last : list string) (mid table : list (list string))
    (others : list (list (list string))) :
  fetch_meet_page ((first :: mid ++ [last]) :: others) = fetch_meet_results mid /\
  ((length table <= 2)%nat -> fetch_meet_page (table :: others) = Return []) /\
  fetch_meet_page [] = Raise IndexError.
Proof.
  unfold fetch_meet_page. repeat split.
  - cbn [index lookup list_lookup mbind result_bind].
    by rewrite slice_inner_middle.
  - intros H. cbn [index lookup list_lookup mbind result_bind].
    unfold slice_inner. replace (length table - 2)%nat with 0%nat by lia.
    reflexivity.
Qed.

Lemma fetch_meet_page_skips_ends_witness :
  fetch_meet_page [[[]; ["100 Free"]; []]] = fetch_meet_results [["100 Free"]] /\
  fetch_meet_page [[[]; []]] = Return [].
Proof.
  split.
  - exact (proj1 (fetch_meet_page_skips_ends [] [] [["100 Free"]] [] [])).
  - apply (proj1 (proj2 (fetch_meet_page_skips_ends [] [] [] [[]; []] []))).
    simpl. lia.
Defined.

(** ** The time parser *)

(** X8.  On a text the time parser raises [ValueError] or
    [OverflowError] and nothing else, the [IndexError] of the missing
    second field included: [ValueError] when the text has not the form
    the code goes by, [OverflowError] when it has. *)
Theorem time_to_float_exceptions (s : string) (e : exn) :
  time_to_float (Some s) = Raise e ->
  (e = ValueError /\ min_sec_head_form s = false) \/
  (e = OverflowError /\ min_sec_head_form s = true).
Proof.
  destruct (py_float s) as [x|e'] eqn:Ef.
  { rewrite (time_to_float_number _ _ Ef). discriminate. }
  rewrite time_to_float_handler by (by rewrite Ef).
  destruct (contains "dq" (lower s)); [discriminate|].
  unfold min_sec_head_form.
  destruct (py_int (before_colon s)) as [m|e1] eqn:Ei; simpl.
  - destruct (after_colon s) as [r|] eqn:Ea; simpl.
    + destruct (py_float (before_colon r)) as [y|e2] eqn:Er; simpl.
      * unfold float_of_int.
        destruct (binary_normalize _ _ _ _ _); simpl; intros [= <-]; auto.
      * apply py_float_Raise in Er as ->. intros [= <-]. auto.
    + exfalso. assert (before_colon s = s) as Hs.
      { clear -Ea. induction s as [|c s IH]; simpl in *; [reflexivity|].
        destruct (Ascii.eqb c ":"); [discriminate | by rewrite IH]. }
      rewrite Hs in Ei. apply py_int_is_float in Ei as [x Ex]. congruence.
  - apply py_int_Raise in Ei as ->. intros [= <-].
    destruct (after_colon s); auto.
Qed.

Lemma time_to_float_exceptions_witness :
  (ValueError = ValueError /\ min_sec_head_form "1:xx" = false) \/
  (ValueError = OverflowError /\ min_sec_head_form "1:xx" = true).
Proof. apply (time_to_float_exceptions "1:xx"). reflexivity. Defined.

(** X9.  On a text the result is the absence marker exactly when
    [float] rejects the text and "dq" occurs in it in any case: the
    marker wins over the minutes and seconds, and a number that parses
    is never taken for it. *)
Theorem time_to_float_absent (s : string) :
  time_to_float (Some s) = Return None <->
  is_Return (py_float s) = false /\ contains "dq" (lower s) = true.
Proof.
  split.
  - destruct (py_float s) as [x|e'] eqn:Ef.
    { rewrite (time_to_float_number _ _ Ef). discriminate. }
    rewrite time_to_float_handler by (by rewrite Ef).
    destruct (contains "dq" (lower s)); [auto|].
    destruct (py_int (before_colon s)) as [m|]; cbn [mbind result_bind];
      [|intros H; discriminate H].
    destruct (after_colon s) as [r|]; cbn [mbind result_bind];
      [|intros H; discriminate H].
    destruct (py_float (before_colon r)); cbn [mbind result_bind];
      [|intros H; discriminate H].
    destruct (float_of_int (m * 60)); cbn [mbind result_bind];
      intros H; discriminate H.
  - intros [Hf Hdq]. by apply time_to_float_dq.
Qed.

Lemma time_to_float_absent_witness :
  time_to_float (Some "1:05.3 dq") = Return None.
Proof. apply (proj2 (time_to_float_absent "1:05.3 dq")). split; reflexivity. Defined.

Lemma starts_with_q_app A R :
  starts_with "q" (lower (String.append A (String ":" R))) =
  starts_with "q" (lower A).
Proof. destruct A; reflexivity. Qed.

Lemma contains_dq_cons c h :
  contains "dq" (String c h) =
  (Ascii.eqb "d" c && starts_with "q" h) || contains "dq" h.
Proof. reflexivity. Qed.

Lemma contains_dq_app A R :
  contains "dq" (lower (String.append A (String ":" R))) =
  contains "dq" (lower A) || contains "dq" (lower R).
Proof.
  induction A as [|c A IH].
  - reflexivity.
  - change (lower (String.append (String c A) (String ":" R)))
      with (String (lower_ascii c) (lower (String.append A (String ":" R)))).
    change (lower (String c A)) with (String (lower_ascii c) (lower A)).
    rewrite !contains_dq_cons, IH, starts_with_q_app.
    by rewrite orb_assoc.
Qed.

Lemma before_colon_number S R :
  forallb number_char (list_ascii_of_string S) = true ->
  before_colon (String.append S (String ":" R)) = S.
Proof.
  intros H. apply before_colon_app. by apply number_chars_no_colon.
Qed.

(** X10.  With an integer text before the first colon and a float text
    after it, what follows a second colon is not read, as long as "dq"
    does not occur in it. *)
Theorem time_to_float_ignores_third_field (M S R : string) (m : Z) (x : float) :
  py_int M = Return m ->
  py_float S = Return x ->
  contains "dq" (lower R) = false ->
  time_to_float (Some (String.append M (String ":" (String.append S (String ":" R))))) =
  time_to_float (Some (String.append M (String ":" S))).
Proof.
  intros HM HS HR.
  rewrite (time_to_float_min_sec _ _ _ _ HM HS).
  rewrite (time_to_float_handler _ (py_float_colon M _)).
  pose proof (py_int_chars _ _ HM) as HcM.
  pose proof (py_float_chars _ _ HS) as HcS.
  rewrite !contains_dq_app, HR.
  rewrite (no_d_no_dq M) by (by apply number_chars_no_d).
  rewrite (no_d_no_dq S) by (by apply number_chars_no_d).
  cbn [orb].
  destruct (number_chars_no_colon _ HcM) as [HbM HaM].
  rewrite (before_colon_app _ _ HbM), (after_colon_app _ _ HaM), HM.
  cbn [mbind result_bind].
  rewrite (before_colon_number _ _ HcS), HS. reflexivity.
Qed.

Lemma time_to_float_ignores_third_field_witness :
  time_to_float (Some "1:02:03") = time_to_float (Some "1:02").
Proof.
  apply (time_to_float_ignores_third_field "1" "02" "03" 1 (S754_finite false 4503599627370496 (-51)));
    vm_compute; reflexivity.
Defined.

(** ** The swimmer profile *)

Lemma bold_text_Raise info i e : bold_text info i = Raise e -> e = IndexError.
Proof.
  unfold bold_text. intros H.
  apply bind_Raise in H as [H | (td & _ & H)]; by apply index_Raise in H.
Qed.

Lemma swimmer_info_Raise (soup : Document) e :
  swimmer_info soup = Raise e ->
  e = IndexError \/ e = ValueError \/ e = KeyError.
Proof.
  unfold swimmer_info. intros H.
  apply bind_Raise in H as [H | (info & _ & H)];
    [apply index_Raise in H; auto|].
  do 3 (apply bind_Raise in H as [H | (? & _ & H)];
        [apply bold_text_Raise in H; auto|]).
  apply bind_Raise in H as [H | (code & _ & H)];
    [apply py_int_Raise in H; auto|].
  apply bind_Raise in H as [H | (year & _ & H)]; [|discriminate].
  apply graduation_lookup_Raise in H as [-> _]. auto.
Qed.

Lemma plain_rows_cons i rows :
  plain_rows (i :: rows) =
  ((if is_heading i then 0 else 1) + plain_rows rows)%nat.
Proof.
  unfold plain_rows. rewrite filter_cons.
  destruct (is_heading i); case_decide; simpl; congruence.
Qed.

Lemma str_take_app n d r :
  String.length d = n -> str_take n (String.append d r) = d.
Proof.
  intros <-. induction d as [|c d IH]; simpl; [by destruct r | by rewrite IH].
Qed.

Lemma str_drop_app n d r :
  String.length d = n -> str_drop n (String.append d r) = r.
Proof.
  intros <-. induction d as [|c d IH]; simpl; [by destruct r | assumption].
Qed.

Lemma string_length_app a b :
  String.length (String.append a b) = (String.length a + String.length b)%nat.
Proof. induction a as [|c a IH]; simpl; [reflexivity | by rewrite IH]. Qed.

Lemma string_app_cons x a b :
  String.append (String x a) b = String x (String.append a b).
Proof. reflexivity. Qed.

Lemma string_app_assoc a b c :
  String.append (String.append a b) c = String.append a (String.append b c).
Proof.
  induction a as [|x a IH]; [reflexivity|].
  by rewrite !string_app_cons, IH.
Qed.

Section ProfileFurther.

Context {date : Type} (strptime : string -> option date).


Lemma scan_times_count rows current_event acc ts :
  scan_times date strptime current_event acc rows = (ts, None) ->
  length ts = (length acc + plain_rows rows)%nat.
Proof.
  revert current_event acc. induction rows as [|i rows IH];
    intros current_event acc; cbn [scan_times]; rewrite ?plain_rows_cons.
  - intros [= <-]. unfold plain_rows. simpl. lia.
  - unfold is_heading. destruct (contains "<b>" (row_str i)).
    + intros H. apply IH in H. lia.
    + destruct (performance _ _ _ _); [|discriminate].
      intros H. apply IH in H. rewrite length_app in H. simpl in H. lia.
Qed.


(** X11.  [fetch_swimmer] never raises [TypeError], and an [IndexError]
    or a [KeyError] that it raises comes from the metadata table: the
    performance table gives rise to neither. *)
Theorem fetch_swimmer_exceptions (soup : Document) (e : exn) :
  fetch_swimmer date strptime soup = Raise e ->
  e <> TypeError /\
  (e = IndexError \/ e = KeyError -> swimmer_info soup = Raise e).
Proof.
  intros H. destruct (swimmer_info soup) as [[name year]|e'] eqn:Ei.
  - rewrite (fetch_swimmer_after_info strptime _ _ _ Ei) in H.
    destruct (performance_block date strptime soup) as [ts [e1|]] eqn:Eb;
      [|discriminate].
    apply performance_block_exn in Eb as [(-> & _) | [-> | ->]];
      try discriminate H; injection H as <-;
      (split; [discriminate | intros [?|?]; discriminate]).
  - rewrite (fetch_swimmer_info_Raise strptime _ _ Ei) in H. injection H as <-.
    split; [|auto].
    apply swimmer_info_Raise in Ei as [-> | [-> | ->]]; discriminate.
Qed.

(** X12.  A document without tables, or whose first table has fewer
    than ten cells, is an [IndexError], whatever else it holds. *)
Theorem fetch_swimmer_short_metadata (soup : Document) :
  (soup = [] \/
   exists info, soup !! 0%nat = Some info /\ (length (table_td info) < 10)%nat) ->
  fetch_swimmer date strptime soup = Raise IndexError.
Proof.
  intros H. apply fetch_swimmer_info_Raise. unfold swimmer_info.
  destruct H as [-> | (info & H0 & Hlen)]; [reflexivity|].
  unfold index at 1. rewrite H0. cbn [mbind result_bind].
  assert (bold_text info 9 = Raise IndexError) as H9.
  { unfold bold_text, index. by rewrite (lookup_ge_None_2 _ 9) by lia. }
  destruct (bold_text info 1) as [last|e1] eqn:E1; cbn [mbind result_bind];
    [|by apply bold_text_Raise in E1 as ->].
  destruct (bold_text info 2) as [first|e2] eqn:E2; cbn [mbind result_bind];
    [|by apply bold_text_Raise in E2 as ->].
  by rewrite H9.
Qed.

(** X13.  A swimmer that is returned has one performance for each row
    of the third table that is not in heading style, and none when
    there is no third table: no row is skipped on the way. *)
Theorem fetch_swimmer_performance_count (soup : Document) (sw : Swimmer date) :
  fetch_swimmer date strptime soup = Return sw ->
  length (swimmer_times sw) =
  match soup !! 2%nat with
  | Some t => plain_rows (table_tr t)
  | None => 0%nat
  end.
Proof.
  intros H. destruct (swimmer_info soup) as [[name year]|e'] eqn:Ei.
  2:{ by rewrite (fetch_swimmer_info_Raise strptime _ _ Ei) in H. }
  rewrite (fetch_swimmer_after_info strptime _ _ _ Ei) in H.
  destruct (performance_block date strptime soup) as [ts [e1|]] eqn:Eb.
  - pose proof Eb as Eb'.
    apply performance_block_exn in Eb' as [(-> & -> & Habs) | [-> | ->]];
      try discriminate H. injection H as <-. simpl.
    destruct Habs as [-> | (t & -> & ->)]; reflexivity.
  - injection H as <-. simpl. unfold performance_block, index in Eb.
    destruct (soup !! 2%nat) as [t|]; [|discriminate].
    destruct (table_tr t) as [|first rows] eqn:Et; [discriminate|].
    cbn [lookup list_lookup] in Eb.
    by apply scan_times_count in Eb.
Qed.


(** X15.  Of the text of a performance row the first ten characters are
    the date and the characters from the fourteenth on the time: the
    three characters between them are not read. *)
Theorem performance_ignores_separator
    (current_event d mid mid' t : string) :
  String.length d = 10%nat ->
  String.length mid = 3%nat -> String.length mid' = 3%nat ->
  performance date strptime current_event
    (String.append d (String.append mid t)) =
  performance date strptime current_event
    (String.append d (String.append mid' t)).
Proof.
  intros Hd Hm Hm'. unfold performance.
  rewrite !(str_take_app 10 d) by assumption.
  rewrite <- !string_app_assoc.
  rewrite !(str_drop_app 13) by (rewrite string_length_app; lia).
  reflexivity.
Qed.

End ProfileFurther.

Lemma fetch_swimmer_exceptions_witness :
  IndexError <> TypeError /\
  (IndexError = IndexError \/ IndexError = KeyError ->
   swimmer_info [] = Raise IndexError).
Proof.
  apply (fetch_swimmer_exceptions (fun _ : string => @None unit) [] IndexError).
  reflexivity.
Defined.

Lemma fetch_swimmer_short_metadata_witness :
  fetch_swimmer unit (fun _ => None)
    [mkTable [mkCell []; mkCell ["Doe"]; mkCell ["John"]] []; empty_table]
  = Raise IndexError.
Proof.
  apply (fetch_swimmer_short_metadata (fun _ : string => @None unit)).
  right. eexists. split; [reflexivity|]. simpl. lia.
Defined.

Lemma fetch_swimmer_performance_count_witness :
  length
    (swimmer_times
       (mkSwimmer "John Doe" "FR"
          [mkTime "50 Free" tt (Some (S754_finite false 6896136929411072 (-48)));
           mkTime "50 Free" tt None])) =
  plain_rows (table_tr sample_times).
Proof.
  apply (fetch_swimmer_performance_count (fun _ : string => Some tt) sample_profile).
  reflexivity.
Defined.


Lemma performance_ignores_separator_witness :
  performance unit (fun _ => Some tt) "50 Free" "01/02/2020 - 24.5" =
  performance unit (fun _ => Some tt) "50 Free" "01/02/2020   24.5".
Proof.
  apply (performance_ignores_separator (fun _ : string => Some tt)
           "50 Free" "01/02/2020" " - " "   " "24.5"); reflexivity.
Defined.

(** ** The list scrapers *)

Lemma for_append_acc {A B : Type} (body : A -> result (list B)) acc items :
  for_append body acc items =
  (r ← for_append body [] items; Return (acc ++ r)).
Proof.
  revert acc. induction items as [|i rest IH]; intros acc; cbn [for_append].
  - cbn [mbind result_bind]. by rewrite app_nil_r.
  - destruct (body i) as [new|e]; cbn [mbind result_bind]; [|reflexivity].
    rewrite (IH (acc ++ new)), (IH ([] ++ new)).
    destruct (for_append body [] rest); cbn [mbind result_bind]; [|reflexivity].
    by rewrite app_assoc.
Qed.

Lemma for_append_cons {A B : Type} (body : A -> result (list B)) i rest :
  for_append body [] (i :: rest) =
  (new ← body i; r ← for_append body [] rest; Return (new ++ r)).
Proof.
  cbn [for_append]. destruct (body i) as [new|e]; cbn [mbind result_bind];
    [|reflexivity].
  by rewrite for_append_acc.
Qed.

Lemma for_append_Raise {A B : Type} (body : A -> result (list B)) items e :
  for_append body [] items = Raise e ->
  Exists (fun i => body i = Raise e) items.
Proof.
  induction items as [|i rest IH]; [discriminate|].
  rewrite for_append_cons. destruct (body i) as [new|e'] eqn:Ei;
    cbn [mbind result_bind].
  - destruct (for_append body [] rest) as [r|e'] eqn:Er;
      cbn [mbind result_bind]; [discriminate|].
    intros [= ->]. right. by apply IH.
  - intros [= ->]. by left.
Qed.


Lemma index_back_app {A : Type} (l k : list A) (n : nat) :
  (n <= length k)%nat -> index_back (l ++ k) n = index_back k n.
Proof.
  intros Hn. unfold index_back, index. rewrite length_app.
  destruct (n <=? length k)%nat eqn:E1; [|apply Nat.leb_gt in E1; lia].
  destruct (n <=? length l + length k)%nat eqn:E2; [|apply Nat.leb_gt in E2; lia].
  rewrite lookup_app_r by lia.
  by replace (length l + length k - n - length l)%nat with (length k - n)%nat by lia.
Qed.

Lemma index_back_short {A : Type} (l : list A) (n : nat) :
  (length l < n)%nat -> index_back l n = Raise IndexError.
Proof.
  intros H. unfold index_back.
  by destruct (n <=? length l)%nat eqn:E; [apply Nat.leb_le in E; lia|].
Qed.

Lemma attr_Return t key v : attr t key = Return v <-> tag_attrs t !! key = Some v.
Proof. unfold attr. destruct (tag_attrs t !! key); split; congruence. Qed.

Lemma attr_Raise t key e :
  attr t key = Raise e <-> e = KeyError /\ has_attr key t = false.
Proof.
  unfold attr, has_attr. destruct (tag_attrs t !! key); split;
    try congruence; try (intros [= <-]; auto); intros [-> ?]; congruence.
Qed.

(** X16.  [fetch_team_urls] returns the text and the [value] of every
    option but the first, in the order of the page, when each of them
    has a [value]; it raises [KeyError] when one of them has none.  The
    first option is not read: it may have no [value]. *)
Theorem fetch_team_urls_spec (dropdown : list Tag) :
  (forall teams,
     fetch_team_urls dropdown = Return teams <->
     Forall2 (fun o team => team.1 = tag_text o /\
                            tag_attrs o !! "value" = Some team.2)
             (drop 1 dropdown) teams) /\
  (forall e,
     fetch_team_urls dropdown = Raise e <->
     e = KeyError /\
     Exists (fun o => has_attr "value" o = false) (drop 1 dropdown)).
Proof.
  unfold fetch_team_urls. generalize (drop 1 dropdown). clear dropdown.
  intros options.
  assert (forall teams,
     for_append
       (fun i => value ← attr i "value"; Return [(tag_text i, value)])
       [] options = Return teams <->
     Forall2 (fun o team => team.1 = tag_text o /\
                            tag_attrs o !! "value" = Some team.2)
             options teams) as Hret.
  { induction options as [|o rest IH]; intros teams.
    - cbn [for_append]. split.
      + intros [= <-]. constructor.
      + intros HF. by inversion HF.
    - rewrite for_append_cons. split.
      + intros H. apply bind_Return in H as (new & Hb & H).
        apply bind_Return in Hb as (v & Hv & [= <-]).
        apply attr_Return in Hv.
        apply bind_Return in H as (r & Hr & [= <-]).
        constructor; [auto | by apply IH].
      + intros HF. inversion HF as [|? [text v] ? teams' [Ht Hv] HF']; subst.
        simpl in *. apply attr_Return in Hv. rewrite Hv.
        cbn [mbind result_bind].
        rewrite (proj2 (IH teams') HF'). cbn [mbind result_bind].
        by rewrite Ht. }
  split; [exact Hret|]. intros e.
  assert (forall e', for_append
            (fun i => value ← attr i "value"; Return [(tag_text i, value)])
            [] options = Raise e' ->
          e' = KeyError /\ Exists (fun o => has_attr "value" o = false) options)
    as Hraise.
  { intros e' H. apply for_append_Raise, Exists_exists in H as (o & Hin & H).
    apply bind_Raise in H as [H | (v & _ & H)]; [|discriminate].
    apply attr_Raise in H as [-> H]. split; [reflexivity|].
    apply Exists_exists. eauto. }
  split; [apply Hraise|]. intros [-> HE].
  destruct (for_append _ [] options) as [teams|e] eqn:E.
  - exfalso. pose proof (proj1 (Hret teams) eq_refl) as HF.
    apply Exists_exists in HE as (o & Hin & Ho).
    apply list_elem_of_lookup in Hin as [k Hk].
    destruct (Forall2_lookup_l _ _ _ _ _ HF Hk) as (team & _ & _ & Hv).
    unfold has_attr in Ho. by rewrite Hv in Ho.
  - by destruct (Hraise e eq_refl) as [-> _].
Qed.

Lemma fetch_team_urls_spec_witness :
  fetch_team_urls
    [bare "Select a team";
     mkTag "Auburn" {[ "value" := "/auburn" ]};
     mkTag "Baldwinsville" {[ "value" := "/bville" ]}] =
  Return [("Auburn", "/auburn"); ("Baldwinsville", "/bville")] /\
  fetch_team_urls [bare "Select a team"; bare "Auburn"] = Raise KeyError.
Proof.
  split.
  - apply (proj1 (fetch_team_urls_spec _)). repeat constructor.
  - apply (proj2 (fetch_team_urls_spec _)). split; [reflexivity|].
    left. reflexivity.
Defined.

(** X17.  [fetch_swimmer_urls] reads the last table of the page and no
    other: a page without tables is an [IndexError]; otherwise each
    link of the last table gives one entry, in order, with the text of
    the link and its [href] after the site prefix, and a link without
    [href] is a [KeyError]. *)
Theorem fetch_swimmer_urls_spec (pre : list (list Tag)) (table : list Tag) :
  fetch_swimmer_urls [] = Raise IndexError /\
  (forall swimmers,
     fetch_swimmer_urls (pre ++ [table]) = Return swimmers <->
     Forall2 (fun a sw =>
                sw.1 = tag_text a /\
                exists href, tag_attrs a !! "href" = Some href /\
                  sw.2 = String.append "http://www.swimdata.info" href)
             table swimmers) /\
  (forall e, fetch_swimmer_urls (pre ++ [table]) = Raise e -> e = KeyError).
Proof.
  split; [reflexivity|]. unfold fetch_swimmer_urls.
  rewrite (index_back_app pre [table] 1) by (simpl; lia).
  change (index_back [table] 1) with (Return table).
  cbn [mbind result_bind]. split.
  - induction table as [|a rest IH]; intros swimmers.
    + cbn [for_append]. split.
      * intros [= <-]. constructor.
      * intros HF. by inversion HF.
    + rewrite for_append_cons. split.
      * intros H. apply bind_Return in H as (new & Hb & H).
        apply bind_Return in Hb as (v & Hv & [= <-]).
        apply attr_Return in Hv.
        apply bind_Return in H as (r & Hr & [= <-]).
        constructor; [simpl; eauto | by apply IH].
      * intros HF.
        inversion HF as [|? [text url] ? sw' (Ht & href & Hv & Hu) HF']; subst.
        simpl in *. apply attr_Return in Hv. rewrite Hv.
        cbn [mbind result_bind].
        rewrite (proj2 (IH sw') HF'). cbn [mbind result_bind].
        by rewrite Ht, Hu.
  - intros e H. apply for_append_Raise, Exists_exists in H as (a & _ & H).
    apply bind_Raise in H as [H | (v & _ & H)]; [|discriminate].
    by apply attr_Raise in H as [-> _].
Qed.

Lemma fetch_swimmer_urls_spec_witness :
  fetch_swimmer_urls [[bare "Home"]; [anchor "Doe, John (FR)" "/s/1"]] =
  Return [("Doe, John (FR)", "http://www.swimdata.info/s/1")].
Proof.
  apply (proj1 (proj2 (fetch_swimmer_urls_spec [[bare "Home"]]
                         [anchor "Doe, John (FR)" "/s/1"]))).
  repeat constructor. simpl. eexists. split; reflexivity.
Defined.

Lemma for_append_filter {A B : Type} (body : A -> result (list B))
    (keep : A -> bool) items :
  (forall i, keep i = false -> body i = Return []) ->
  for_append body [] items =
  for_append body [] (filter (fun i => keep i = true) items).
Proof.
  intros Hskip. induction items as [|i rest IH]; [reflexivity|].
  rewrite filter_cons. destruct (keep i) eqn:Ek; case_decide; try congruence.
  - rewrite !for_append_cons, IH. reflexivity.
  - rewrite for_append_cons, (Hskip i Ek), IH. cbn [mbind result_bind].
    destruct (for_append body [] (filter (fun i => keep i = true) rest));
      reflexivity.
Qed.

(** X18.  [fetch_meet_urls] reads the third table from the end and no
    other, and in it only the rows with a link: a page with fewer than
    three tables is an [IndexError], and a row without a link is
    skipped before its cells are read. *)
Theorem fetch_meet_urls_reads_linked_rows
    (pre short : list (list MeetRow)) (table t2 t1 : list MeetRow) :
  ((length short < 3)%nat -> fetch_meet_urls short = Raise IndexError) /\
  fetch_meet_urls (pre ++ [table; t2; t1]) =
  fetch_meet_urls [filter (fun i => has_links i = true) table; t2; t1].
Proof.
  split.
  - intros H. unfold fetch_meet_urls. by rewrite index_back_short.
  - unfold fetch_meet_urls.
    rewrite (index_back_app pre [table; t2; t1] 3) by (simpl; lia).
    change (index_back [table; t2; t1] 3) with (Return table).
    change (index_back [filter (fun i => has_links i = true) table; t2; t1] 3)
      with (Return (filter (fun i => has_links i = true) table)).
    cbn [mbind result_bind]. apply for_append_filter.
    intros i Hi. unfold has_links in Hi. by rewrite Hi.
Qed.

Lemma fetch_meet_urls_reads_linked_rows_witness :
  fetch_meet_urls [[]; []] = Raise IndexError.
Proof.
  apply (proj1 (fetch_meet_urls_reads_linked_rows [] [[]; []] [] [] [])).
  simpl. lia.
Defined.

(** X19.  What [fetch_meet_urls] returns has one entry for each row
    with a link, in order: the text of cell 1, then the text of cell 0,
    then the [href] of the first link of the row.  Its exceptions are
    [IndexError] and [KeyError]. *)
Theorem fetch_meet_urls_entries
    (pre : list (list MeetRow)) (table t2 t1 : list MeetRow) :
  (forall meets,
     fetch_meet_urls (pre ++ [table; t2; t1]) = Return meets ->
     Forall2 (fun row meet =>
                tr_td row !! 1%nat = Some meet.1.1 /\
                tr_td row !! 0%nat = Some meet.1.2 /\
                exists a, tr_a row !! 0%nat = Some a /\
                          tag_attrs a !! "href" = Some meet.2)
             (filter (fun i => has_links i = true) table) meets) /\
  (forall e,
     fetch_meet_urls (pre ++ [table; t2; t1]) = Raise e ->
     e = IndexError \/ e = KeyError).
Proof.
  unfold fetch_meet_urls.
  rewrite (index_back_app pre [table; t2; t1] 3) by (simpl; lia).
  change (index_back [table; t2; t1] 3) with (Return table).
  cbn [mbind result_bind]. split.
  - induction table as [|row rest IH]; intros meets.
    + intros [= <-]. constructor.
    + rewrite for_append_cons, filter_cons.
      change (0 <? length (tr_a row))%nat with (has_links row).
      case_decide as Hl; [rewrite Hl | apply not_true_is_false in Hl; rewrite Hl].
      * intros H. apply bind_Return in H as (new & Hb & H).
        apply bind_Return in Hb as (c1 & H1 & Hb). apply index_Return in H1.
        apply bind_Return in Hb as (c0 & H0 & Hb). apply index_Return in H0.
        apply bind_Return in Hb as (a & Ha & Hb). apply index_Return in Ha.
        apply bind_Return in Hb as (href & Hh & [= <-]).
        apply attr_Return in Hh.
        apply bind_Return in H as (r & Hr & [= <-]).
        constructor; [simpl; eauto 6 | by apply IH].
      * cbn [mbind result_bind]. intros H.
        apply bind_Return in H as (r & Hr & [= <-]). by apply IH.
  - intros e H. apply for_append_Raise, Exists_exists in H as (row & _ & H).
    destruct (0 <? length (tr_a row))%nat; [|discriminate].
    repeat (apply bind_Raise in H as [H | (? & _ & H)];
            [apply index_Raise in H; auto|]).
    apply bind_Raise in H as [H | (? & _ & H)]; [|discriminate].
    apply attr_Raise in H as [-> _]. auto.
Qed.

Lemma fetch_meet_urls_entries_witness :
  Forall2 (fun row meet =>
             tr_td row !! 1%nat = Some meet.1.1 /\
             tr_td row !! 0%nat = Some meet.1.2 /\
             exists a, tr_a row !! 0%nat = Some a /\
                       tag_attrs a !! "href" = Some meet.2)
    (filter (fun i => has_links i = true)
       [mkMeetRow ["Date"; "Meet"] [];
        mkMeetRow ["12/01/2019"; "Auburn at Oswego"] [anchor "results" "/m/1"]])
    [("Auburn at Oswego", "12/01/2019", "/m/1")].
Proof.
  apply (proj1 (fetch_meet_urls_entries []
                  [mkMeetRow ["Date"; "Meet"] [];
                   mkMeetRow ["12/01/2019"; "Auburn at Oswego"]
                     [anchor "results" "/m/1"]] [] [])).
  reflexivity.
Defined.

Section CrawlProperties.

Variable get : string -> list Tag.

Lemma meet_link_Return (l : Tag) :
  exists new, meet_link l = Return new /\ Forall meet_list_url new.
Proof.
  unfold meet_link, attr_str, attr.
  destruct (tag_attrs l !! "href") as [href|].
  - destruct (contains "Meet%20List" href) eqn:E; cbn [mbind result_bind].
    + eexists. split; [reflexivity|]. constructor; [|constructor].
      exists href. auto.
    + eexists. split; [reflexivity | constructor].
  - replace (contains "Meet%20List" "None") with false by (by vm_compute).
    eexists. split; [reflexivity | constructor].
Qed.

Lemma meet_links_Return (links : list Tag) :
  exists urls, for_append meet_link [] links = Return urls /\
               Forall meet_list_url urls.
Proof.
  induction links as [|l rest (urls & IH & HF)].
  - exists []. split; [reflexivity | constructor].
  - destruct (meet_link_Return l) as (new & Hn & Hnew).
    rewrite for_append_cons, Hn, IH. cbn [mbind result_bind].
    eexists. split; [reflexivity|]. by apply Forall_app.
Qed.

Lemma date_pages_Return (dates : list (string * string)) :
  exists urls,
    for_append (fun date => for_append meet_link [] (get (snd date))) [] dates
    = Return urls /\ Forall meet_list_url urls.
Proof.
  induction dates as [|d rest (urls & IH & HF)].
  - exists []. split; [reflexivity | constructor].
  - destruct (meet_links_Return (get (snd d))) as (new & Hn & Hnew).
    rewrite for_append_cons, Hn, IH. cbn [mbind result_bind].
    eexists. split; [reflexivity|]. by apply Forall_app.
Qed.


(** X20.  Every url that [fetch_all_meet_urls] returns is the site
    prefix followed by an [href] in which "Meet%20List" occurs. *)
Theorem fetch_all_meet_urls_marked (urls : list string) :
  fetch_all_meet_urls get = Return urls -> Forall meet_list_url urls.
Proof.
  unfold fetch_all_meet_urls. intros H.
  apply bind_Return in H as (dates & _ & H).
  destruct (date_pages_Return dates) as (urls' & H' & HF). congruence.
Qed.


End CrawlProperties.

Lemma fetch_all_meet_urls_marked_witness :
  Forall meet_list_url ["http://www.section3swim.com/Meet%20List?1"].
Proof.
  apply (fetch_all_meet_urls_marked sample_site). reflexivity.
Defined.


(** A year text with a no-break space is looked up like the year, and
    a link of the index page whose text is a no-break space is
    skipped. *)
Example beyond_ascii_samples :
  swimmer_info [info_table "Doe" "John" (String.append "2023" nbsp)] =
    Return ("John Doe", "FR") /\
  fetch_all_meet_urls (fun _ => [bare nbsp]) = Return [].
Proof. vm_compute. auto. Qed.
